(** * Profile views of the authors application

    A shallow embedding of [authors/apps/profiles/views.py]: the six
    class-based views that create, edit, show, list, deactivate and
    activate user profiles, together with the parts of Django and of the
    REST framework they call (query sets, exceptions, the exception
    handler and the permission check).

    Two pieces of process state are threaded through every handler: the
    [UserProfile] table and the class attribute [APIException.status_code],
    which the views assign before they raise. *)

From Stdlib Require Import ZArith List String Ascii Bool Lia.
From stdpp Require Import base option strings gmap.
Import ListNotations.

Local Open Scope string_scope.
Local Open Scope Z_scope.

(** ** Data model *)

(** A row of the user table; [request.user] is one of these. *)
Record User := mkUser {
  id : Z;
  user_username : string
}.

(** A row of the profile table. [username] is the one-to-one relation to
    the owning user, so that [username_id] is that user's [id]. *)
Record UserProfile := mkProfile {
  pk : Z;
  username : User;
  avatar : option string;
  bio : string;
  active_profile : bool
}.

Definition username_id (p : UserProfile) : Z := id (username p).

(** The process state: the profile table, in table order, and the class
    attribute [APIException.status_code] (500 when the process starts). *)
Record World := mkWorld {
  profiles : list UserProfile;
  status_code : Z
}.

Definition HTTP_200_OK : Z := 200.
Definition HTTP_201_CREATED : Z := 201.
Definition HTTP_400_BAD_REQUEST : Z := 400.
Definition HTTP_401_UNAUTHORIZED : Z := 401.
Definition HTTP_403_FORBIDDEN : Z := 403.
Definition HTTP_404_NOT_FOUND : Z := 404.
Definition HTTP_500_INTERNAL_SERVER_ERROR : Z := 500.

Definition fresh_process (rows : list UserProfile) : World :=
  mkWorld rows HTTP_500_INTERNAL_SERVER_ERROR.

(** ** Exceptions and the handler monad *)

Inductive exn :=
| APIException (message : string)   (* raised with [{"message": message}] *)
| Http404
| DoesNotExist
| MultipleObjectsReturned
| IntegrityError
| ValueError
| KeyError
| TypeError
| NotAuthenticated
| PermissionDenied
| ValidationError (errors : string).

(** A computation reads and writes the world and either returns or
    raises; what it wrote before raising stays written. *)
Definition M (A : Type) : Type := World -> (exn + A) * World.

Definition ret {A} (a : A) : M A := fun w => (inr a, w).
Definition raise {A} (e : exn) : M A := fun w => (inl e, w).
Definition bind {A B} (m : M A) (k : A -> M B) : M B :=
  fun w => match m w with
           | (inr a, w') => k a w'
           | (inl e, w') => (inl e, w')
           end.

#[global] Instance M_ret : MRet M := @ret.
#[global] Instance M_bind : MBind M := fun A B k m => bind m k.

(** [try: m  except ...: ...], the clauses given by [h]; an exception
    that no clause names propagates. *)
Definition try_except {A} (m : M A) (h : exn -> option (M A)) : M A :=
  fun w => match m w with
           | (inr a, w') => (inr a, w')
           | (inl e, w') => match h e with
                            | Some k => k w'
                            | None => (inl e, w')
                            end
           end.

(** [try: m  except ...: ...  else: els]; the [else] suite runs outside
    the protection of the [try]. *)
Definition try_except_else {A B} (m : M A) (h : exn -> option (M B))
    (els : A -> M B) : M B :=
  fun w => match m w with
           | (inr a, w') => els a w'
           | (inl e, w') => match h e with
                            | Some k => k w'
                            | None => (inl e, w')
                            end
           end.

(** [APIException.status_code = s] *)
Definition set_status_code (s : Z) : M unit :=
  fun w => (inr tt, mkWorld (profiles w) s).

(** ** Query sets *)

(** A query set is a condition on rows, evaluated against the table at
    the moment it is used. *)
Definition QuerySet : Type := UserProfile -> bool.

Definition objects_all : QuerySet := fun _ => true.

(** Keyword lookups. [username_id=None] (the anonymous user's id) matches
    no row, the column being non-null. *)
Definition username_id_is (v : option Z) : QuerySet :=
  fun r => match v with
           | Some n => username_id r =? n
           | None => false
           end.

Definition active_profile_is (b : bool) : QuerySet :=
  fun r => Bool.eqb (active_profile r) b.

Definition qs_filter (q c : QuerySet) : QuerySet := fun r => q r && c r.

Definition evaluate (q : QuerySet) (w : World) : list UserProfile :=
  List.filter q (profiles w).

(** Iterating over a query set reads the rows that satisfy it. *)
Definition qs_list (q : QuerySet) : M (list UserProfile) :=
  fun w => (inr (evaluate q w), w).

(** [queryset.get] with keyword lookups [c]: exactly one row, or an
    exception. *)
Definition qs_get (q c : QuerySet) : M UserProfile :=
  fun w => match evaluate (qs_filter q c) w with
           | [] => (inl DoesNotExist, w)
           | [r] => (inr r, w)
           | _ :: _ :: _ => (inl MultipleObjectsReturned, w)
           end.

(** [django.shortcuts.get_object_or_404] *)
Definition get_object_or_404 (q c : QuerySet) : M UserProfile :=
  try_except (qs_get q c)
    (fun e => match e with DoesNotExist => Some (raise Http404) | _ => None end).

(** The table after the row with the primary key of [p] has been
    rewritten to [p]. *)
Definition rewrite_row (p : UserProfile) (rows : list UserProfile) : list UserProfile :=
  map (fun r => if pk r =? pk p then p else r) rows.

(** [instance.save()] on a fetched row. *)
Definition Model_save (p : UserProfile) : M unit :=
  fun w => (inr tt, mkWorld (rewrite_row p (profiles w)) (status_code w)).

Definition next_pk (rows : list UserProfile) : Z :=
  1 + fold_right Z.max 0 (map pk rows).

(** ** [int(str)] *)

(** The white space [int] strips from an ASCII string: tab, line feed,
    vertical tab, form feed, carriage return and space. *)
Definition is_space (c : ascii) : bool :=
  let n := Z.of_nat (nat_of_ascii c) in
  ((9 <=? n) && (n <=? 13)) || (n =? 32).

Definition digit_of (c : ascii) : option Z :=
  let n := Z.of_nat (nat_of_ascii c) in
  if (48 <=? n) && (n <=? 57) then Some (n - 48) else None.

Fixpoint lstrip (s : list ascii) : list ascii :=
  match s with
  | c :: s' => if is_space c then lstrip s' else s
  | [] => []
  end.

(** Digits with single underscores between them, then optional trailing
    white space. [after_digit] says that the previous character was a
    digit. *)
Fixpoint int_digits (acc : Z) (after_digit : bool) (s : list ascii) : option Z :=
  match s with
  | [] => if after_digit then Some acc else None
  | c :: s' =>
      match digit_of c with
      | Some d => int_digits (10 * acc + d) true s'
      | None =>
          if negb after_digit then None
          else if Ascii.eqb c "_"%char then int_digits acc false s'
          else if is_space c && forallb is_space s' then Some acc
          else None
      end
  end.

(** The interpreter's limit on the digits of a decimal string it
    converts ([sys.int_info.default_max_str_digits]). *)
Definition int_max_str_digits : Z := 4300.

Definition digit_count (s : list ascii) : Z :=
  Z.of_nat (length (List.filter (fun c => bool_decide (is_Some (digit_of c))) s)).

(** [int(s)] for a string of ASCII characters: [None] is [ValueError]. *)
Definition python_int (s : string) : option Z :=
  if int_max_str_digits <? digit_count (list_ascii_of_string s) then None
  else
    match lstrip (list_ascii_of_string s) with
    | c :: s' =>
        if Ascii.eqb c "-"%char then Z.opp <$> int_digits 0 false s'
        else if Ascii.eqb c "+"%char then int_digits 0 false s'
        else int_digits 0 false (c :: s')
    | [] => None
    end.


Definition is_ascii (s : string) : bool :=
  forallb (fun c => Z.of_nat (nat_of_ascii c) <? 128) (list_ascii_of_string s).

(** What [int] makes of a string that holds a character outside ASCII.
    The interpreter first turns the decimal digits and the white space
    of its Unicode character database into their ASCII counterparts;
    that database is no part of the program. *)
Class UnicodeDatabase := {
  int_of_unicode : string -> option Z
}.

(** [int(s)] for any string: [None] is [ValueError]. *)
Definition builtin_int `{UnicodeDatabase} (s : string) : option Z :=
  if is_ascii s then python_int s else int_of_unicode s.

(** ** Requests, views and responses *)

Inductive Method := GET | HEAD | OPTIONS | POST | PUT | PATCH | DELETE.

(** [user = None] is the anonymous user of a request without
    credentials; [data] is the parsed JSON body. *)
Record Request := mkRequest {
  method : Method;
  user : option User;
  data : gmap string string
}.

(** The view instance [self]: the request and the URL captures. *)
Record View := mkView {
  request : Request;
  kwargs : gmap string string
}.

(** [self.request.user.id] *)
Definition request_user_id (self : View) : option Z :=
  id <$> user (request self).

(** Python truth of [dict.get(key)] for string values. *)
Definition truthy (o : option string) : bool :=
  match o with
  | Some s => negb (String.eqb s "")
  | None => false
  end.

(** Modelled from the spec: the serializers module is not among the
    sources. A profile holds avatar, bio and the [active_profile] flag
    and is shown under its user's name; [ProfileData] is what
    [ProfileSerializer(...).data] yields for one profile. *)
Record ProfileData := mkProfileData {
  data_username : string;
  data_avatar : option string;
  data_bio : string;
  data_active_profile : bool
}.

Definition ProfileSerializer_data (p : UserProfile) : ProfileData :=
  mkProfileData (user_username (username p)) (avatar p) (bio p)
                (active_profile p).

(** The validated fields of a [ProfileSerializer]; an absent field is
    left alone by a partial update. *)
Record ProfileFields := mkProfileFields {
  field_avatar : option string;
  field_bio : option string
}.

Inductive Body :=
| Message (message : string)                 (* [{"message": ...}] *)
| Detail (detail : string)                   (* [{"detail": ...}] *)
| Errors (errors : string)                   (* serializer errors *)
| Profile (profile : ProfileData)
| Profiles (by_username : gmap string ProfileData)   (* [{"profiles": {...}}] *)
| Activation (flag : bool).                  (* [{"active_profile": ...}] *)

Record Response := mkResponse {
  status : Z;
  body : Body
}.

(** The modules the views import that are not among the sources:
    [custom_validations.validate_avatar], which returns or raises, and
    the field validation of [ProfileSerializer] ([partial] first). *)
Class Collaborators := {
  validate_avatar : option string -> M unit;
  ProfileSerializer_run_validation : bool -> gmap string string -> M ProfileFields
}.

(** Modelled from the spec: the model module is not among the sources.
    A user has at most one profile, enforced by a uniqueness constraint
    of the store; a new profile starts active. [serializer.save(username=u)]
    on a serializer without instance inserts the row. *)
Definition ProfileSerializer_create (f : ProfileFields) (u : User) : M UserProfile :=
  fun w =>
    if existsb (fun r => username_id r =? id u) (profiles w)
    then (inl IntegrityError, w)
    else
      let p := mkProfile (next_pk (profiles w)) u (field_avatar f)
                         (default "" (field_bio f)) true in
      (inr p, mkWorld (profiles w ++ [p]) (status_code w)).

(** [serializer.save()] on a serializer with an instance. *)
Definition ProfileSerializer_update (p : UserProfile) (f : ProfileFields) : M UserProfile :=
  let p' := mkProfile (pk p) (username p)
              (match field_avatar f with Some a => Some a | None => avatar p end)
              (default (bio p) (field_bio f))
              (active_profile p) in
  Model_save p';; mret p'.

(** Modelled from the spec: [DeactivateSerializer] is not among the
    sources. The dedicated endpoints toggle the [active_profile] flag, so
    the serializer has that one boolean field, read the way the
    framework's [BooleanField] reads strings. *)
Definition BooleanField_to_internal_value (s : string) : option bool :=
  if existsb (String.eqb s)
       ["t"; "T"; "y"; "Y"; "yes"; "YES"; "true"; "True"; "TRUE";
        "on"; "On"; "ON"; "1"]
  then Some true
  else if existsb (String.eqb s)
       ["f"; "F"; "n"; "N"; "no"; "NO"; "false"; "False"; "FALSE";
        "off"; "Off"; "OFF"; "0"]
  then Some false
  else None.

(** [serializer.is_valid()]: the validated flag, or [None] with errors. *)
Definition DeactivateSerializer_is_valid (d : gmap string string) : option bool :=
  d !! "active_profile" ≫= BooleanField_to_internal_value.

Definition DeactivateSerializer_save (p : UserProfile) (flag : bool) : M UserProfile :=
  let p' := mkProfile (pk p) (username p) (avatar p) (bio p) flag in
  Model_save p';; mret p'.

(** ** The framework around a handler *)

Inductive Permission := IsAuthenticated | IsAuthenticatedOrReadOnly.

Definition SAFE_METHODS : list Method := [GET; HEAD; OPTIONS].

Definition Method_eqb (a b : Method) : bool :=
  match a, b with
  | GET, GET | HEAD, HEAD | OPTIONS, OPTIONS | POST, POST
  | PUT, PUT | PATCH, PATCH | DELETE, DELETE => true
  | _, _ => false
  end.

Definition has_permission (p : Permission) (r : Request) : bool :=
  match p with
  | IsAuthenticated => bool_decide (is_Some (user r))
  | IsAuthenticatedOrReadOnly =>
      existsb (Method_eqb (method r)) SAFE_METHODS
      || bool_decide (is_Some (user r))
  end.

(** [APIView.check_permissions] with [permission_denied]: a request that
    no authenticator recognised is answered [NotAuthenticated]. *)
Definition check_permissions (perms : list Permission) (r : Request) : M unit :=
  if forallb (fun p => has_permission p r) perms then mret tt
  else match user r with
       | None => raise NotAuthenticated
       | Some _ => raise PermissionDenied
       end.

(** Modelled from the spec: the authentication backend is not among the
    sources. Absence of credentials surfaces as 403, which is what the
    framework answers when the backend names no challenge header. *)
Definition authenticate_header : option string := None.

(** [APIView.handle_exception] with the default [exception_handler]. An
    [APIException] is answered with the status found in the class
    attribute at that moment; an exception the handler does not know is
    re-raised. *)
Definition exception_handler (e : exn) (w : World) : option Response :=
  match e with
  | APIException m => Some (mkResponse (status_code w) (Message m))
  | Http404 => Some (mkResponse HTTP_404_NOT_FOUND (Detail "Not found."))
  | NotAuthenticated =>
      Some (mkResponse
              (match authenticate_header with
               | Some _ => HTTP_401_UNAUTHORIZED
               | None => HTTP_403_FORBIDDEN
               end)
              (Detail "Authentication credentials were not provided."))
  | PermissionDenied =>
      Some (mkResponse HTTP_403_FORBIDDEN
              (Detail "You do not have permission to perform this action."))
  | ValidationError errs => Some (mkResponse HTTP_400_BAD_REQUEST (Errors errs))
  | _ => None
  end.

(** The answer to a request: a response, or an unhandled fault. *)
Definition respond (m : M Response) (w : World) : (Response + exn) * World :=
  match m w with
  | (inr r, w') => (inl r, w')
  | (inl e, w') => match exception_handler e w' with
                   | Some r => (inl r, w')
                   | None => (inr e, w')
                   end
  end.

(** [APIView.dispatch]: permissions are checked before the handler for
    the request's method runs. *)
Definition dispatch (permission_classes : list Permission)
    (handler : View -> M Response) (self : View) : World -> (Response + exn) * World :=
  respond (check_permissions permission_classes (request self);; handler self).

(** The keyword arguments with which the framework's [put] and [patch]
    call [self.update(request, *args, **kwargs)]: the URL captures, and
    [partial=True], which [partial_update] adds for a PATCH. *)
Definition update_keywords (self : View) : list string :=
  ((if Method_eqb (method (request self)) PATCH then ["partial"] else [])
   ++ map fst (map_to_list (kwargs self)))%list.

(** A call of a method declared [def update(self, request)]: any keyword
    argument is a [TypeError], raised before the body runs. *)
Definition call_without_keywords (keywords : list string) : M unit :=
  match keywords with
  | [] => mret tt
  | _ :: _ => raise TypeError
  end.

(** ** The views *)

(** The exception classes an [except] clause names. *)
Definition except_DoesNotExist {A} (k : M A) (e : exn) : option (M A) :=
  match e with DoesNotExist => Some k | _ => None end.
Definition except_Http404 {A} (k : M A) (e : exn) : option (M A) :=
  match e with Http404 => Some k | _ => None end.
Definition except_IntegrityError {A} (k : M A) (e : exn) : option (M A) :=
  match e with IntegrityError => Some k | _ => None end.
Definition except_ValueError {A} (k : M A) (e : exn) : option (M A) :=
  match e with ValueError => Some k | _ => None end.
Definition except_MultipleObjectsReturned {A} (k : M A) (e : exn) : option (M A) :=
  match e with MultipleObjectsReturned => Some k | _ => None end.
Definition except_Exception {A} (k : M A) (e : exn) : option (M A) := Some k.

Module CreateProfileAPIView.
Section WithCollaborators.
Context `{Collaborators}.

Definition permission_classes : list Permission := [IsAuthenticated].
Definition queryset : QuerySet := objects_all.

(** [perform_create(self, serializer)], the serializer given by its
    validated fields; the saved row is the serializer's instance
    afterwards. *)
Definition perform_create (self : View) (serializer : ProfileFields) : M UserProfile :=
  let avatar_name := data (request self) !! "avatar" in
  validate_avatar avatar_name;;
  try_except_else
    (get_object_or_404 queryset
       (qs_filter (username_id_is (request_user_id self))
                  (active_profile_is false)))
    (except_Http404 (mret tt))
    (fun _ => raise (APIException
       "You deactivated your profile. Please activate to continue"));;
  try_except
    (match user (request self) with
     | Some u => ProfileSerializer_create serializer u
     | None => raise ValueError
     end)
    (except_IntegrityError
       (set_status_code HTTP_400_BAD_REQUEST;;
        raise (APIException "A user with this profile already exists"))).

(** [CreateModelMixin.create] *)
Definition create (self : View) : M Response :=
  serializer ← ProfileSerializer_run_validation false (data (request self));
  instance ← perform_create self serializer;
  mret (mkResponse HTTP_201_CREATED (Profile (ProfileSerializer_data instance))).
End WithCollaborators.
End CreateProfileAPIView.

Module EditUserProfileAPIView.
Section WithCollaborators.
Context `{Collaborators}.

Definition permission_classes : list Permission := [IsAuthenticated].
Definition queryset : QuerySet := objects_all.

Definition get_object (self : View) : M UserProfile :=
  (if truthy (data (request self) !! "avatar")
   then validate_avatar (data (request self) !! "avatar")
   else mret tt);;
  try_except
    (qs_get queryset (username_id_is (request_user_id self)))
    (except_DoesNotExist
       (set_status_code HTTP_404_NOT_FOUND;;
        raise (APIException "User profile not found. Please create one"))).

(** [UpdateModelMixin.update], which the view inherits. *)
Definition update (partial : bool) (self : View) : M Response :=
  instance ← get_object self;
  fields ← ProfileSerializer_run_validation partial (data (request self));
  instance' ← ProfileSerializer_update instance fields;
  mret (mkResponse HTTP_200_OK (Profile (ProfileSerializer_data instance'))).
End WithCollaborators.
End EditUserProfileAPIView.

Module ViewUserProfileAPIView.
Section WithInterpreter.
Context `{UnicodeDatabase}.

Definition permission_classes : list Permission := [IsAuthenticatedOrReadOnly].

(** The store turns the text of a lookup value into an integer with
    [int]. *)
Definition username_id_lookup (username_id : string) : M QuerySet :=
  match builtin_int username_id with
  | Some n => mret (username_id_is (Some n))
  | None => raise ValueError
  end.

Definition get_queryset (self : View) : M QuerySet :=
  username_id ←
    try_except
      (match kwargs self !! "username_id" with
       | Some username_id =>
           match builtin_int username_id with
           | Some _ => mret username_id
           | None => raise ValueError
           end
       | None => raise KeyError
       end)
      (except_ValueError
         (set_status_code HTTP_400_BAD_REQUEST;;
          raise (APIException "User ID must be an integer")));
  try_except
    (c ← username_id_lookup username_id;
     qs_get objects_all (qs_filter c (active_profile_is true));;
     mret tt)
    (except_Exception
       (set_status_code HTTP_404_NOT_FOUND;;
        raise (APIException "User profile does not exist")));;
  c ← username_id_lookup username_id;
  mret (qs_filter objects_all c).

(** [GenericAPIView.get_object]: the row of [get_queryset] whose
    [lookup_field] equals the URL capture; the framework's own
    [get_object_or_404] also turns a [ValueError] into [Http404]. *)
Definition get_object (self : View) : M UserProfile :=
  queryset ← get_queryset self;
  match kwargs self !! "username_id" with
  | Some username_id =>
      try_except
        (c ← username_id_lookup username_id;
         get_object_or_404 queryset c)
        (except_ValueError (raise Http404))
  | None => raise KeyError
  end.

(** [RetrieveModelMixin.retrieve] *)
Definition retrieve (self : View) : M Response :=
  instance ← get_object self;
  mret (mkResponse HTTP_200_OK (Profile (ProfileSerializer_data instance))).
End WithInterpreter.
End ViewUserProfileAPIView.

Module ViewAllProfilesAPIView.
Definition permission_classes : list Permission := [IsAuthenticatedOrReadOnly].
Definition queryset : QuerySet := objects_all.

(** [{obj['username']: obj for obj in serializer.data}]: a later entry
    replaces an earlier one under the same key. *)
Definition by_username (objs : list ProfileData) : gmap string ProfileData :=
  fold_left (fun d obj => <[data_username obj := obj]> d) objs ∅.

Definition list (self : View) : M Response :=
  try_except
    (try_except
       (qs_get objects_all (active_profile_is true);; mret tt)
       (except_MultipleObjectsReturned (mret tt)))
    (except_DoesNotExist
       (set_status_code HTTP_404_NOT_FOUND;;
        raise (APIException "No user profiles found")));;
  queryset ← qs_list (qs_filter queryset (active_profile_is true));
  let serializer_data := map ProfileSerializer_data queryset in
  let data := by_username serializer_data in
  mret (mkResponse HTTP_200_OK (Profiles data)).
End ViewAllProfilesAPIView.

Module DeactivateProfileAPIView.
Definition permission_classes : list Permission := [IsAuthenticated].
Definition queryset : QuerySet := objects_all.

Definition get_object (self : View) : M UserProfile :=
  my_profile ←
    try_except
      (qs_get queryset (username_id_is (request_user_id self)))
      (except_Exception
         (set_status_code HTTP_404_NOT_FOUND;;
          raise (APIException "User profile not found")));
  try_except_else
    (get_object_or_404 queryset
       (qs_filter (username_id_is (request_user_id self))
                  (active_profile_is false)))
    (except_Http404 (mret tt))
    (fun _ =>
       set_status_code HTTP_400_BAD_REQUEST;;
       raise (APIException
         "You deactivated your profile. Please activate to continue"));;
  mret my_profile.

Definition update (self : View) : M Response :=
  call_without_keywords (update_keywords self);;
  let data : gmap string string := {[ "active_profile" := "False" ]} in
  profile ← get_object self;
  match DeactivateSerializer_is_valid data with
  | Some flag =>
      saved ← DeactivateSerializer_save profile flag;
      mret (mkResponse HTTP_200_OK (Activation (active_profile saved)))
  | None =>
      mret (mkResponse HTTP_400_BAD_REQUEST (Errors "active_profile"))
  end.
End DeactivateProfileAPIView.

Module ActivateProfileAPIView.
Definition permission_classes : list Permission := [IsAuthenticated].
Definition queryset : QuerySet := objects_all.

Definition get_object (self : View) : M UserProfile :=
  my_profile ←
    try_except
      (qs_get queryset (username_id_is (request_user_id self)))
      (except_Exception
         (set_status_code HTTP_404_NOT_FOUND;;
          raise (APIException "User profile not found")));
  try_except_else
    (get_object_or_404 queryset
       (qs_filter (username_id_is (request_user_id self))
                  (active_profile_is true)))
    (except_Http404 (mret tt))
    (fun _ =>
       set_status_code HTTP_400_BAD_REQUEST;;
       raise (APIException
         "Your profile is already active and viewable by other users"));;
  mret my_profile.

Definition update (self : View) : M Response :=
  call_without_keywords (update_keywords self);;
  let data : gmap string string := {[ "active_profile" := "True" ]} in
  profile ← get_object self;
  match DeactivateSerializer_is_valid data with
  | Some flag =>
      saved ← DeactivateSerializer_save profile flag;
      mret (mkResponse HTTP_200_OK (Activation (active_profile saved)))
  | None =>
      mret (mkResponse HTTP_400_BAD_REQUEST (Errors "active_profile"))
  end.
End ActivateProfileAPIView.

(** Modelled from the spec: the view behind [/api/user/] is not among
    the sources, only its tests are. The current user's detail requires
    authentication. *)
Module UserRetrieveUpdateAPIView.
Definition permission_classes : list Permission := [IsAuthenticated].
End UserRetrieveUpdateAPIView.

(** ** The routes of the articles application *)

(** [authors/apps/article/urls.py]. The views the routes name are not
    among the sources; they are named, not modelled. *)
Inductive ArticleView :=
| ArticlesAPIView | RetrieveArticleAPIView | RateAPIView | LikeAPIView
| DislikeAPIView | CommentsAPIView | RetrieveCommentsAPIView | SubCommentAPIView.

Record URLPattern := path {
  route : string;
  view : ArticleView;
  name : option string
}.

Definition app_name : string := "articles".

Definition urlpatterns : list URLPattern := [
  path "articles/" ArticlesAPIView None;
  path "articles/<slug>" RetrieveArticleAPIView None;
  path "rate/<slug>/" RateAPIView (Some "rate");
  path "articles/<slug>/like" LikeAPIView None;
  path "articles/<slug>/dislike" DislikeAPIView None;
  path "articles/<slug>/comments/" CommentsAPIView None;
  path "articles/<slug>/comments/<pk>" RetrieveCommentsAPIView None;
  path "articles/<slug>/comments/<pk>/subcomment" SubCommentAPIView None
].

(** The framework's [path()] matches a whole request path against the
    route: the text of the route stands for itself and an untyped capture
    [<name>] stands for one or more characters other than "/". With
    captures that fill a whole "/"-separated part of the route, as all of
    them do here, this is matching part by part. The request path is
    taken to hold no line feed. *)
Fixpoint split_slash (s : string) : list string :=
  match s with
  | EmptyString => [EmptyString]
  | String c s' =>
      if Ascii.eqb c "/"%char then EmptyString :: split_slash s'
      else match split_slash s' with
           | seg :: rest => String c seg :: rest
           | [] => [String c EmptyString]
           end
  end.

Fixpoint slash_free (s : string) : bool :=
  match s with
  | EmptyString => true
  | String c s' => negb (Ascii.eqb c "/"%char) && slash_free s'
  end.

Fixpoint line_feed_free (s : string) : bool :=
  match s with
  | EmptyString => true
  | String c s' => negb (Ascii.eqb c "010"%char) && line_feed_free s'
  end.

Inductive piece :=
| Lit (text : string)
| Param (param : string).

(** The name of a capture, read after its "<": letters up to the closing
    ">", which ends the part. A typed capture ([<int:pk>]) is not read. *)
Fixpoint capture_name (s : string) : option string :=
  match s with
  | EmptyString => None
  | String c s' =>
      if Ascii.eqb c ">"%char then
        match s' with EmptyString => Some EmptyString | _ => None end
      else if Ascii.eqb c "<"%char || Ascii.eqb c ":"%char then None
      else String c <$> capture_name s'
  end.

Fixpoint plain_text (s : string) : bool :=
  match s with
  | EmptyString => true
  | String c s' =>
      negb (Ascii.eqb c "<"%char) && negb (Ascii.eqb c ">"%char) && plain_text s'
  end.

Definition parse_part (part : string) : option piece :=
  match part with
  | String c rest =>
      if Ascii.eqb c "<"%char then
        match capture_name rest with
        | Some EmptyString => None
        | Some n => Some (Param n)
        | None => None
        end
      else if plain_text part then Some (Lit part) else None
  | EmptyString => Some (Lit EmptyString)
  end.

Fixpoint parse_parts (parts : list string) : option (list piece) :=
  match parts with
  | [] => Some []
  | part :: rest =>
      match parse_part part, parse_parts rest with
      | Some x, Some xs => Some (x :: xs)
      | _, _ => None
      end
  end.

Definition compile (u : URLPattern) : option (list piece) :=
  parse_parts (split_slash (route u)).

(** The keyword arguments a match hands to the view, in route order. *)
Fixpoint match_parts (ps : list piece) (parts : list string)
    : option (list (string * string)) :=
  match ps, parts with
  | [], [] => Some []
  | Lit text :: ps', part :: parts' =>
      if String.eqb text part then match_parts ps' parts' else None
  | Param n :: ps', part :: parts' =>
      if String.eqb part "" then None
      else cons (n, part) <$> match_parts ps' parts'
  | _, _ => None
  end.

Definition matches (u : URLPattern) (request_path : string)
    : option (list (string * string)) :=
  ps ← compile u; match_parts ps (split_slash request_path).

(** The resolver tries the patterns in order; the first match wins. *)
Fixpoint resolve_in (table : list URLPattern) (request_path : string)
    : option (ArticleView * list (string * string)) :=
  match table with
  | [] => None
  | u :: rest =>
      match matches u request_path with
      | Some kw => Some (view u, kw)
      | None => resolve_in rest request_path
      end
  end.

Definition resolve (request_path : string) : option (ArticleView * list (string * string)) :=
  resolve_in urlpatterns request_path.

(** The path made of a route with values put in the place of its
    captures, and the keyword arguments those values are. *)
Fixpoint join_slash (parts : list string) : string :=
  match parts with
  | [] => EmptyString
  | [part] => part
  | part :: rest => part ++ "/" ++ join_slash rest
  end.

Fixpoint fill (ps : list piece) (values : list string) : list string :=
  match ps with
  | [] => []
  | Lit text :: ps' => text :: fill ps' values
  | Param _ :: ps' =>
      match values with
      | v :: values' => v :: fill ps' values'
      | [] => EmptyString :: fill ps' []
      end
  end.

Fixpoint params (ps : list piece) : list string :=
  match ps with
  | [] => []
  | Lit _ :: ps' => params ps'
  | Param n :: ps' => n :: params ps'
  end.

(** Whether two routes can match one path: part by part, equal texts, or
    a capture against a non-empty text or another capture. *)
Definition compatible (a b : piece) : bool :=
  match a, b with
  | Lit x, Lit y => String.eqb x y
  | Lit x, Param _ | Param _, Lit x => negb (String.eqb x "")
  | Param _, Param _ => true
  end.

Fixpoint overlaps (p q : list piece) : bool :=
  match p, q with
  | [], [] => true
  | a :: p', b :: q' => compatible a b && overlaps p' q'
  | _, _ => false
  end.

(** Checks of a route table, run once over the table: no two routes
    overlap, and no route overlaps another one extended by a trailing
    "/". *)
Definition disjoint_from (u u' : URLPattern) : bool :=
  match compile u, compile u' with
  | Some p, Some q => negb (overlaps p q)
  | _, _ => true
  end.

Fixpoint pairwise_disjoint (table : list URLPattern) : bool :=
  match table with
  | [] => true
  | u :: rest => forallb (disjoint_from u) rest && pairwise_disjoint rest
  end.

Definition slash_strict (table : list URLPattern) : bool :=
  forallb (fun u =>
    forallb (fun u' =>
      match compile u, compile u' with
      | Some p, Some q => negb (overlaps (p ++ [Lit EmptyString]) q)
      | _, _ => true
      end) table) table.

(** ** Vocabulary of the statements *)

(** The user [u] owns exactly the row [p]. *)
Definition has_profile (w : World) (u : User) (p : UserProfile) : Prop :=
  evaluate (username_id_is (Some (id u))) w = [p].

(** The name a profile is listed under. *)
Definition profile_name (p : UserProfile) : string := user_username (username p).

Definition set_active (p : UserProfile) (flag : bool) : UserProfile :=
  mkProfile (pk p) (username p) (avatar p) (bio p) flag.

(** The constraints of the profile table: the primary key is unique and
    no user owns two rows. *)
Definition wf_table (rows : list UserProfile) : Prop :=
  List.NoDup (map pk rows) /\ List.NoDup (map username_id rows).

(** An outcome that is a response carrying a status of its own: 200
    with the class attribute left alone, or 400 or 404 with the table
    left alone and the class attribute at that status. *)
Definition answers_with_own_status (w : World) (out : (Response + exn) * World) : Prop :=
  exists resp w',
    out = (inl resp, w')
    /\ (status resp = HTTP_200_OK /\ status_code w' = status_code w
        \/ (status resp = HTTP_400_BAD_REQUEST \/ status resp = HTTP_404_NOT_FOUND)
           /\ profiles w' = profiles w /\ status_code w' = status resp).

(** A non-empty string of decimal digits. *)
Definition all_digits (s : string) : bool :=
  match list_ascii_of_string s with
  | [] => false
  | l => forallb (fun c => bool_decide (is_Some (digit_of c))) l
  end.

(** The entry a dictionary comprehension keeps under [k]: the last one
    built with that key. *)
Definition last_named (k : string) (objs : list ProfileData) : option ProfileData :=
  List.find (fun obj => String.eqb (data_username obj) k) (rev objs).

(** ** Sample data *)

Definition alice : User := mkUser 1 "alice".
Definition bob : User := mkUser 2 "bob".

Definition alice_active : UserProfile := mkProfile 1 alice None "" true.
Definition alice_inactive : UserProfile := mkProfile 1 alice None "" false.
Definition bob_active : UserProfile := mkProfile 2 bob None "" true.

Definition carol : User := mkUser 3 "carol".
Definition carol_inactive : UserProfile := mkProfile 3 carol None "" false.

Definition dave : User := mkUser 4 "dave".

Definition sample_world : World :=
  fresh_process [alice_active; bob_active; carol_inactive].

Definition sample_listing : Response :=
  mkResponse HTTP_200_OK
    (Profiles (ViewAllProfilesAPIView.by_username
                 (map ProfileSerializer_data [alice_active; bob_active]))).

(** An interpreter whose database knows no digit outside ASCII. *)
Definition ascii_digits_only : UnicodeDatabase := {|
  int_of_unicode := fun _ => None
|}.

(** Collaborators that accept every payload. *)
Definition lenient : Collaborators := {|
  validate_avatar := fun _ => mret tt;
  ProfileSerializer_run_validation := fun _ d =>
    mret (mkProfileFields (d !! "avatar") (d !! "bio"))
|}.

(** A request of [u] with body [d], routed with the capture [ident]. *)
Definition request_of (m : Method) (u : option User) (d : gmap string string)
    (ident : option string) : View :=
  mkView (mkRequest m u d)
         (match ident with
          | Some i => {[ "username_id" := i ]}
          | None => ∅
          end).

(** * Properties *)

(** ** [int(str)] on examples *)

Example python_int_12 : python_int "12" = Some 12. Proof. reflexivity. Qed.
Example python_int_neg : python_int " -1_0 " = Some (-10). Proof. reflexivity. Qed.
Example python_int_abc : python_int "abc" = None. Proof. reflexivity. Qed.
Example python_int_1a : python_int "1a" = None. Proof. reflexivity. Qed.
Example python_int_us : python_int "1__0" = None. Proof. reflexivity. Qed.
Example python_int_empty : python_int "" = None. Proof. reflexivity. Qed.

(** The separator characters 28 to 31 are no white space for [int]. *)
Example python_int_separator :
  python_int (String (ascii_of_nat 28) "9") = None
  /\ python_int (String (ascii_of_nat 32) "9") = Some 9
  /\ python_int (String (ascii_of_nat 9) "9") = Some 9.
Proof. repeat split; reflexivity. Qed.

(** One digit beyond the interpreter's limit is refused. *)
Example python_int_limit :
  python_int (string_of_list_ascii (repeat "1"%char 4301)) = None
  /\ python_int (string_of_list_ascii (repeat "0"%char 4300)) = Some 0.
Proof. split; vm_compute; reflexivity. Qed.

(** ** What [int] refuses *)






(** ** Facts about query sets *)

Lemma filter_qs_filter (a b : QuerySet) (l : list UserProfile) :
  List.filter (qs_filter a b) l = List.filter b (List.filter a l).
Proof.
  induction l as [|r l IH]; simpl; [reflexivity|].
  unfold qs_filter at 1. destruct (a r); simpl.
  - destruct (b r); rewrite IH; reflexivity.
  - exact IH.
Qed.

Lemma evaluate_qs_filter (a b : QuerySet) (w : World) :
  evaluate (qs_filter a b) w = List.filter b (evaluate a w).
Proof. apply filter_qs_filter. Qed.

Lemma evaluate_objects_all (c : QuerySet) (w : World) :
  evaluate (qs_filter objects_all c) w = evaluate c w.
Proof. unfold evaluate. apply List.filter_ext. reflexivity. Qed.

Lemma qs_get_one (q c : QuerySet) (w : World) (p : UserProfile) :
  evaluate (qs_filter q c) w = [p] -> qs_get q c w = (inr p, w).
Proof. unfold qs_get. intros ->. reflexivity. Qed.

Lemma qs_get_none (q c : QuerySet) (w : World) :
  evaluate (qs_filter q c) w = [] -> qs_get q c w = (inl DoesNotExist, w).
Proof. unfold qs_get. intros ->. reflexivity. Qed.


Lemma has_profile_flag (w : World) (u : User) (p : UserProfile) (flag : bool) :
  has_profile w u p ->
  evaluate (qs_filter objects_all
              (qs_filter (username_id_is (Some (id u))) (active_profile_is flag))) w
  = if Bool.eqb (active_profile p) flag then [p] else [].
Proof.
  intros Hp. rewrite evaluate_objects_all, evaluate_qs_filter, Hp. reflexivity.
Qed.

Lemma has_profile_get (w : World) (u : User) (p : UserProfile) :
  has_profile w u p ->
  qs_get objects_all (username_id_is (Some (id u))) w = (inr p, w).
Proof. intros Hp. apply qs_get_one. rewrite evaluate_objects_all. exact Hp. Qed.

Lemma has_profile_In (w : World) (u : User) (p : UserProfile) :
  has_profile w u p -> In p (profiles w) /\ username_id p = id u.
Proof.
  intros Hp.
  assert (Hin : In p (evaluate (username_id_is (Some (id u))) w))
    by (rewrite Hp; left; reflexivity).
  apply List.filter_In in Hin as [Hin Hid]. split; [exact Hin|].
  simpl in Hid. apply Z.eqb_eq. exact Hid.
Qed.

(** Unfolds the plumbing of a handler down to its queries. *)
Ltac run_handler :=
  unfold get_object_or_404;
  unfold respond, mbind, M_bind, bind, mret, M_ret, ret, raise, try_except,
    try_except_else, set_status_code, except_Http404,
    except_DoesNotExist, except_Exception, except_IntegrityError,
    except_ValueError, except_MultipleObjectsReturned, request_user_id; simpl.

(** ** The activation state machine *)

Lemma deactivate_get_object_inactive (self : View) (u : User) (p : UserProfile) (w : World) :
  user (request self) = Some u ->
  has_profile w u p ->
  active_profile p = false ->
  DeactivateProfileAPIView.get_object self w =
    (inl (APIException "You deactivated your profile. Please activate to continue"),
     mkWorld (profiles w) HTTP_400_BAD_REQUEST).
Proof.
  intros Hu Hp Hflag. unfold DeactivateProfileAPIView.get_object.
  run_handler. rewrite Hu. simpl.
  unfold DeactivateProfileAPIView.queryset.
  rewrite (has_profile_get w u p Hp).
  rewrite (qs_get_one _ _ w p); [reflexivity|].
  rewrite (has_profile_flag w u p false Hp), Hflag. reflexivity.
Qed.

Lemma activate_get_object_active (self : View) (u : User) (p : UserProfile) (w : World) :
  user (request self) = Some u ->
  has_profile w u p ->
  active_profile p = true ->
  ActivateProfileAPIView.get_object self w =
    (inl (APIException "Your profile is already active and viewable by other users"),
     mkWorld (profiles w) HTTP_400_BAD_REQUEST).
Proof.
  intros Hu Hp Hflag. unfold ActivateProfileAPIView.get_object.
  run_handler. rewrite Hu. simpl.
  unfold ActivateProfileAPIView.queryset.
  rewrite (has_profile_get w u p Hp).
  rewrite (qs_get_one _ _ w p); [reflexivity|].
  rewrite (has_profile_flag w u p true Hp), Hflag. reflexivity.
Qed.



Lemma update_keywords_put (self : View) :
  method (request self) = PUT -> kwargs self = ∅ -> update_keywords self = [].
Proof.
  intros Hput Hnone. unfold update_keywords. rewrite Hput, Hnone, map_to_list_empty.
  reflexivity.
Qed.

Lemma update_keywords_patch (self : View) :
  method (request self) = PATCH -> update_keywords self <> [].
Proof. intros Hpatch. unfold update_keywords. rewrite Hpatch. discriminate. Qed.

Lemma update_keywords_capture (self : View) (k v : string) :
  kwargs self !! k = Some v -> update_keywords self <> [].
Proof.
  intros Hk Hnil. unfold update_keywords in Hnil.
  apply app_eq_nil in Hnil as [_ Hnil]. apply map_eq_nil in Hnil.
  apply map_to_list_empty_iff in Hnil. rewrite Hnil, lookup_empty in Hk. discriminate.
Qed.

(** A PATCH, and a PUT routed with a capture, never reach the body of
    the narrowed [update]. *)
Example update_keywords_samples :
  update_keywords (request_of PUT None ∅ None) = []
  /\ update_keywords (request_of PATCH None ∅ None) = ["partial"]
  /\ update_keywords (request_of PUT None ∅ (Some "1")) = ["username_id"].
Proof. vm_compute. repeat split. Qed.

Lemma call_bare {A} (k : M A) (self : View) (w : World) :
  update_keywords self = [] ->
  (call_without_keywords (update_keywords self);; k) w = k w.
Proof. intros ->. reflexivity. Qed.

Lemma call_with_keywords {A} (k : M A) (self : View) (w : World) :
  update_keywords self <> [] ->
  (call_without_keywords (update_keywords self);; k) w = (inl TypeError, w).
Proof. destruct (update_keywords self); [congruence | reflexivity]. Qed.

(** C2: deactivating a profile that is already inactive, and activating
    one that is already active, never succeeds and leaves the state as
    it was. The call the framework makes for a PUT without URL capture
    is answered 400 with the message, the table unchanged; a call that
    carries a keyword argument (a PATCH, or a routed capture) ends in a
    [TypeError] before the body runs, nothing changed. *)
Theorem repeated_transition_rejected (self : View) (u : User) (p : UserProfile) (w : World) :
  user (request self) = Some u ->
  has_profile w u p ->
  (active_profile p = false ->
   respond (DeactivateProfileAPIView.update self) w =
     match update_keywords self with
     | [] =>
         (inl (mkResponse HTTP_400_BAD_REQUEST
                 (Message "You deactivated your profile. Please activate to continue")),
          mkWorld (profiles w) HTTP_400_BAD_REQUEST)
     | _ :: _ => (inr TypeError, w)
     end)
  /\
  (active_profile p = true ->
   respond (ActivateProfileAPIView.update self) w =
     match update_keywords self with
     | [] =>
         (inl (mkResponse HTTP_400_BAD_REQUEST
                 (Message "Your profile is already active and viewable by other users")),
          mkWorld (profiles w) HTTP_400_BAD_REQUEST)
     | _ :: _ => (inr TypeError, w)
     end)
  /\
  (method (request self) = PUT -> kwargs self = ∅ -> update_keywords self = []).
Proof.
  intros Hu Hp. split; [|split]; [intros Hflag..|apply update_keywords_put].
  - unfold respond, DeactivateProfileAPIView.update.
    destruct (update_keywords self) as [|k ks] eqn:Hkw.
    + rewrite <- Hkw, call_bare by exact Hkw. unfold mbind, M_bind, bind.
      rewrite (deactivate_get_object_inactive self u p w Hu Hp Hflag). reflexivity.
    + rewrite <- Hkw, call_with_keywords by congruence. reflexivity.
  - unfold respond, ActivateProfileAPIView.update.
    destruct (update_keywords self) as [|k ks] eqn:Hkw.
    + rewrite <- Hkw, call_bare by exact Hkw. unfold mbind, M_bind, bind.
      rewrite (activate_get_object_active self u p w Hu Hp Hflag). reflexivity.
    + rewrite <- Hkw, call_with_keywords by congruence. reflexivity.
Qed.

Lemma rewrite_row_absent (p : UserProfile) (rows : list UserProfile) :
  ~ In (pk p) (map pk rows) -> rewrite_row p rows = rows.
Proof.
  induction rows as [|r rows IH]; simpl; intros Hnot; [reflexivity|].
  destruct (Z.eqb_spec (pk r) (pk p)) as [E|E].
  - exfalso. apply Hnot. left. exact E.
  - f_equal. apply IH. intros Hin. apply Hnot. right. exact Hin.
Qed.

Lemma filter_nil_not_In (c : QuerySet) (rows : list UserProfile) (p : UserProfile) :
  List.filter c rows = [] -> c p = true -> ~ In p rows.
Proof.
  intros Hnil Hc Hin.
  assert (H : In p (List.filter c rows)) by (apply List.filter_In; auto).
  rewrite Hnil in H. exact H.
Qed.

Lemma rewrite_row_owner (c : QuerySet) (p p' : UserProfile) (rows : list UserProfile) :
  pk p' = pk p -> c p' = true ->
  List.NoDup (map pk rows) ->
  List.filter c rows = [p] ->
  List.filter c (rewrite_row p' rows) = [p'].
Proof.
  intros Hpk Hc'. induction rows as [|r rows IH]; simpl; intros Hnd Hf;
    [discriminate|].
  inversion Hnd as [|x xs Hnotin Hnd']; subst.
  destruct (c r) eqn:Hcr.
  - injection Hf as -> Hnil.
    rewrite Hpk, Z.eqb_refl. simpl. rewrite Hc'. f_equal.
    fold (rewrite_row p' rows).
    rewrite rewrite_row_absent; [exact Hnil|]. rewrite Hpk. exact Hnotin.
  - assert (Hin : In p rows).
    { assert (H : In p (List.filter c rows)) by (rewrite Hf; left; reflexivity).
      apply List.filter_In in H. tauto. }
    destruct (Z.eqb_spec (pk r) (pk p')) as [E|E].
    + exfalso. apply Hnotin. rewrite E, Hpk. apply in_map. exact Hin.
    + simpl. rewrite Hcr. apply IH; assumption.
Qed.

Lemma has_profile_saved (w : World) (u : User) (p : UserProfile) (flag : bool) :
  has_profile w u p ->
  List.NoDup (map pk (profiles w)) ->
  has_profile (mkWorld (rewrite_row (set_active p flag) (profiles w)) (status_code w))
              u (set_active p flag).
Proof.
  intros Hp Hnd. unfold has_profile, evaluate. simpl.
  apply rewrite_row_owner with (p := p); auto.
  destruct (has_profile_In w u p Hp) as [_ Hid]. simpl.
  unfold username_id in *. simpl. apply Z.eqb_eq. exact Hid.
Qed.


(** ** Listing *)

Lemma list_run (self : View) (w : World) :
  ViewAllProfilesAPIView.list self w =
  match evaluate (active_profile_is true) w with
  | [] => (inl (APIException "No user profiles found"),
           mkWorld (profiles w) HTTP_404_NOT_FOUND)
  | rows => (inr (mkResponse HTTP_200_OK
                    (Profiles (ViewAllProfilesAPIView.by_username
                                 (map ProfileSerializer_data rows)))), w)
  end.
Proof.
  unfold ViewAllProfilesAPIView.list, ViewAllProfilesAPIView.queryset, qs_list, qs_get.
  run_handler. rewrite !evaluate_objects_all.
  destruct (evaluate (active_profile_is true) w) as [|r [|r' rows]] eqn:E;
    simpl; rewrite ?evaluate_objects_all, ?E; reflexivity.
Qed.

(** C10: when no profile is active, also when every profile there is
    has been deactivated, listing answers 404 "No user profiles found"
    and not 200 with an empty mapping. *)
Theorem list_without_active_profile (self : View) (w : World) :
  evaluate (active_profile_is true) w = [] ->
  respond (ViewAllProfilesAPIView.list self) w =
    (inl (mkResponse HTTP_404_NOT_FOUND (Message "No user profiles found")),
     mkWorld (profiles w) HTTP_404_NOT_FOUND).
Proof.
  intros Hnone. unfold respond. rewrite list_run, Hnone. reflexivity.
Qed.

Lemma by_username_acc_lookup (objs : list ProfileData) (d : gmap string ProfileData)
    (k : string) (v : ProfileData) :
  fold_left (fun d obj => <[data_username obj := obj]> d) objs d !! k = Some v ->
  (In v objs /\ data_username v = k) \/ d !! k = Some v.
Proof.
  revert d. induction objs as [|o objs IH]; simpl; intros d Hl; [right; exact Hl|].
  destruct (IH _ Hl) as [[Hin Hk]|Hd].
  - left. split; [right; exact Hin | exact Hk].
  - rewrite lookup_insert in Hd. case_decide as E.
    + injection Hd as <-. left. split; [left; reflexivity | exact E].
    + right. exact Hd.
Qed.

Lemma by_username_acc_keeps (objs : list ProfileData) (d : gmap string ProfileData)
    (k : string) :
  is_Some (d !! k) ->
  is_Some (fold_left (fun d obj => <[data_username obj := obj]> d) objs d !! k).
Proof.
  revert d. induction objs as [|o objs IH]; simpl; intros d Hs; [exact Hs|].
  apply IH. rewrite lookup_insert. case_decide; [eauto | exact Hs].
Qed.

Lemma by_username_acc_covers (objs : list ProfileData) (d : gmap string ProfileData)
    (o : ProfileData) :
  In o objs ->
  is_Some (fold_left (fun d obj => <[data_username obj := obj]> d) objs d
             !! data_username o).
Proof.
  revert d. induction objs as [|o' objs IH]; simpl; intros d Hin; [contradiction|].
  destruct Hin as [->|Hin].
  - apply by_username_acc_keeps. rewrite lookup_insert_eq. eauto.
  - apply IH. exact Hin.
Qed.

Lemma by_username_sound (rows : list UserProfile) (k : string) (v : ProfileData) :
  ViewAllProfilesAPIView.by_username (map ProfileSerializer_data rows) !! k = Some v ->
  exists p, In p rows /\ k = profile_name p /\ v = ProfileSerializer_data p.
Proof.
  intros Hl. apply by_username_acc_lookup in Hl as [[Hin Hk]|He].
  - apply in_map_iff in Hin as (p & <- & Hin). exists p. auto.
  - rewrite lookup_empty in He. discriminate.
Qed.

Lemma by_username_complete (rows : list UserProfile) (p : UserProfile) :
  In p rows ->
  exists q, In q rows /\ profile_name q = profile_name p /\
    ViewAllProfilesAPIView.by_username (map ProfileSerializer_data rows)
      !! profile_name p = Some (ProfileSerializer_data q).
Proof.
  intros Hin.
  destruct (by_username_acc_covers (map ProfileSerializer_data rows) ∅
              (ProfileSerializer_data p)) as [v Hv].
  { apply in_map. exact Hin. }
  destruct (by_username_sound rows _ v Hv) as (q & Hq & Hk & ->).
  exists q. split; [exact Hq|]. split; [symmetry; exact Hk | exact Hv].
Qed.

(** C6: a successful listing carries, under "profiles", a mapping keyed
    by user name. Each entry is an active profile under its own name,
    each active profile's name is a key (holding that profile when no
    other active profile bears the name), and no inactive profile is an
    entry. *)
Theorem list_keyed_by_username (self : View) (w w' : World) (resp : Response) :
  respond (ViewAllProfilesAPIView.list self) w = (inl resp, w') ->
  status resp = HTTP_200_OK ->
  exists d : gmap string ProfileData,
    body resp = Profiles d /\ w' = w
    /\ (forall k v, d !! k = Some v ->
          exists p, In p (profiles w) /\ active_profile p = true
                    /\ k = profile_name p /\ v = ProfileSerializer_data p)
    /\ (forall p, In p (profiles w) -> active_profile p = true ->
          exists q, In q (profiles w) /\ active_profile q = true
                    /\ profile_name q = profile_name p
                    /\ d !! profile_name p = Some (ProfileSerializer_data q))
    /\ (forall p, In p (profiles w) -> active_profile p = true ->
          (forall q, In q (profiles w) -> active_profile q = true ->
                     profile_name q = profile_name p -> q = p) ->
          d !! profile_name p = Some (ProfileSerializer_data p))
    /\ (forall p k, active_profile p = false ->
          d !! k <> Some (ProfileSerializer_data p)).
Proof.
  intros Hrun Hok. unfold respond in Hrun. rewrite list_run in Hrun.
  assert (Hactive : forall p, In p (evaluate (active_profile_is true) w) <->
                              In p (profiles w) /\ active_profile p = true).
  { intros p. unfold evaluate. rewrite List.filter_In. unfold active_profile_is.
    destruct (active_profile p); simpl; intuition congruence. }
  destruct (evaluate (active_profile_is true) w) as [|r rows] eqn:Hrows.
  - simpl in Hrun. injection Hrun as <- <-. simpl in Hok. discriminate.
  - injection Hrun as <- <-. eexists. split; [reflexivity|]. split; [reflexivity|].
    assert (Hsound : forall k v,
      ViewAllProfilesAPIView.by_username (map ProfileSerializer_data (r :: rows)) !! k
        = Some v ->
      exists p, In p (profiles w) /\ active_profile p = true
                /\ k = profile_name p /\ v = ProfileSerializer_data p).
    { intros k v Hl. destruct (by_username_sound _ _ _ Hl) as (p & Hin & Hk & Hv).
      apply Hactive in Hin as [Hin Hflag]. exists p. auto. }
    assert (Hcomplete : forall p, In p (profiles w) -> active_profile p = true ->
      exists q, In q (profiles w) /\ active_profile q = true
                /\ profile_name q = profile_name p
                /\ ViewAllProfilesAPIView.by_username
                     (map ProfileSerializer_data (r :: rows)) !! profile_name p
                   = Some (ProfileSerializer_data q)).
    { intros p Hin Hflag.
      destruct (by_username_complete (r :: rows) p) as (q & Hq & Hname & Hl).
      { apply Hactive. auto. }
      apply Hactive in Hq as [Hq Hqflag]. exists q. auto. }
    split; [exact Hsound|]. split; [exact Hcomplete|]. split.
    + intros p Hin Hflag Huniq.
      destruct (Hcomplete p Hin Hflag) as (q & Hq & Hqflag & Hname & Hl).
      rewrite (Huniq q Hq Hqflag Hname) in Hl. exact Hl.
    + intros p k Hflag Hl.
      destruct (Hsound k _ Hl) as (q & _ & Hqflag & _ & Hv).
      apply (f_equal data_active_profile) in Hv. simpl in Hv. congruence.
Qed.

(** ** Showing one profile *)

Section ShowingOne.
Context `{UnicodeDatabase}.

Lemma get_queryset_run (self : View) (ident : string) (w : World) :
  kwargs self !! "username_id" = Some ident ->
  ViewUserProfileAPIView.get_queryset self w =
  match builtin_int ident with
  | None => (inl (APIException "User ID must be an integer"),
             mkWorld (profiles w) HTTP_400_BAD_REQUEST)
  | Some n =>
      match evaluate (qs_filter (username_id_is (Some n)) (active_profile_is true)) w with
      | [_] => (inr (qs_filter objects_all (username_id_is (Some n))), w)
      | _ => (inl (APIException "User profile does not exist"),
              mkWorld (profiles w) HTTP_404_NOT_FOUND)
      end
  end.
Proof.
  intros Hk. unfold ViewUserProfileAPIView.get_queryset,
    ViewUserProfileAPIView.username_id_lookup, qs_get.
  run_handler. rewrite Hk.
  destruct (builtin_int ident) as [n|] eqn:Hint; simpl; [|reflexivity].
  rewrite Hint. simpl. rewrite evaluate_objects_all.
  destruct (evaluate (qs_filter (username_id_is (Some n)) (active_profile_is true)) w)
    as [|r [|r' rows]]; simpl; rewrite ?Hint; reflexivity.
Qed.

Lemma get_object_run (self : View) (ident : string) (n : Z) (p : UserProfile) (w : World) :
  kwargs self !! "username_id" = Some ident ->
  builtin_int ident = Some n ->
  evaluate (qs_filter (username_id_is (Some n)) (active_profile_is true)) w = [p] ->
  ViewUserProfileAPIView.get_object self w =
  match evaluate (username_id_is (Some n)) w with
  | [] => (inl Http404, w)
  | [r] => (inr r, w)
  | _ :: _ :: _ => (inl MultipleObjectsReturned, w)
  end.
Proof.
  intros Hk Hint Hp. unfold ViewUserProfileAPIView.get_object.
  unfold mbind, M_bind, bind. rewrite (get_queryset_run self ident w Hk), Hint, Hp.
  rewrite Hk. unfold ViewUserProfileAPIView.username_id_lookup. rewrite Hint.
  run_handler. unfold qs_get.
  rewrite evaluate_qs_filter, evaluate_objects_all.
  assert (Hidem : List.filter (username_id_is (Some n)) (evaluate (username_id_is (Some n)) w)
                  = evaluate (username_id_is (Some n)) w).
  { unfold evaluate. rewrite <- filter_qs_filter. apply List.filter_ext.
    intros r. unfold qs_filter. destruct (username_id_is (Some n) r); reflexivity. }
  rewrite Hidem.
  destruct (evaluate (username_id_is (Some n)) w) as [|r [|r' rows]]; reflexivity.
Qed.

(** C5: showing one profile needs no credentials. An identifier that
    [int] does not accept is answered 400 "User ID must be an integer";
    an identifier with no active profile is answered 404; and a profile
    that is shown is an active one, the one of that identifier. This
    holds for every identifier, whatever the interpreter's database
    makes of characters outside ASCII. *)
Theorem retrieve_profile (self : View) (ident : string) (w : World) :
  method (request self) = GET ->
  kwargs self !! "username_id" = Some ident ->
  (builtin_int ident = None ->
   dispatch ViewUserProfileAPIView.permission_classes
            ViewUserProfileAPIView.retrieve self w =
     (inl (mkResponse HTTP_400_BAD_REQUEST (Message "User ID must be an integer")),
      mkWorld (profiles w) HTTP_400_BAD_REQUEST))
  /\
  (forall n, builtin_int ident = Some n ->
   evaluate (qs_filter (username_id_is (Some n)) (active_profile_is true)) w = [] ->
   dispatch ViewUserProfileAPIView.permission_classes
            ViewUserProfileAPIView.retrieve self w =
     (inl (mkResponse HTTP_404_NOT_FOUND (Message "User profile does not exist")),
      mkWorld (profiles w) HTTP_404_NOT_FOUND))
  /\
  (forall resp w' d,
   dispatch ViewUserProfileAPIView.permission_classes
            ViewUserProfileAPIView.retrieve self w = (inl resp, w') ->
   body resp = Profile d ->
   exists p, In p (profiles w) /\ active_profile p = true
             /\ builtin_int ident = Some (username_id p)
             /\ d = ProfileSerializer_data p
             /\ status resp = HTTP_200_OK /\ w' = w).
Proof.
  intros Hget Hk.
  assert (Hdispatch : forall w0,
    dispatch ViewUserProfileAPIView.permission_classes
             ViewUserProfileAPIView.retrieve self w0 =
    respond (ViewUserProfileAPIView.retrieve self) w0).
  { intros w0. unfold dispatch, check_permissions,
      ViewUserProfileAPIView.permission_classes. simpl. rewrite Hget. reflexivity. }
  rewrite Hdispatch.
  assert (Hrefused : forall e w1,
    ViewUserProfileAPIView.get_queryset self w = (inl e, w1) ->
    respond (ViewUserProfileAPIView.retrieve self) w =
    respond (raise e) w1).
  { intros e w1 Hq. unfold respond, ViewUserProfileAPIView.retrieve,
      ViewUserProfileAPIView.get_object, mbind, M_bind, bind.
    rewrite Hq. reflexivity. }
  pose proof (get_queryset_run self ident w Hk) as Hq.
  split; [|split].
  - intros Hint. rewrite Hint in Hq. rewrite (Hrefused _ _ Hq). reflexivity.
  - intros n Hint Hnone. rewrite Hint, Hnone in Hq.
    rewrite (Hrefused _ _ Hq). reflexivity.
  - intros resp w' d Hrun Hbody.
    destruct (builtin_int ident) as [n|] eqn:Hint.
    + destruct (evaluate (qs_filter (username_id_is (Some n)) (active_profile_is true)) w)
        as [|p [|p' rows]] eqn:Hp.
      * exfalso. rewrite (Hrefused _ _ Hq) in Hrun.
        injection Hrun as <- <-. discriminate.
      * clear Hq Hrefused.
        unfold respond, ViewUserProfileAPIView.retrieve in Hrun.
        unfold mbind, M_bind, bind in Hrun.
        rewrite (get_object_run self ident n p w Hk Hint Hp) in Hrun.
        assert (Hin : In p (List.filter (active_profile_is true)
                              (evaluate (username_id_is (Some n)) w))).
        { rewrite <- evaluate_qs_filter, Hp. left. reflexivity. }
        apply List.filter_In in Hin as [Hin Hflag].
        destruct (evaluate (username_id_is (Some n)) w) as [|r [|r' rows]] eqn:Hall.
        -- contradiction.
        -- destruct Hin as [->|[]].
           unfold mret, M_ret, ret in Hrun. injection Hrun as <- <-.
           simpl in Hbody. injection Hbody as <-.
           assert (Hr : In p (evaluate (username_id_is (Some n)) w))
             by (rewrite Hall; left; reflexivity).
           apply List.filter_In in Hr as [Hr Hid]. simpl in Hid.
           apply Z.eqb_eq in Hid. exists p.
           unfold active_profile_is in Hflag.
           destruct (active_profile p); [|discriminate].
           rewrite Hid. auto 10.
        -- simpl in Hrun. discriminate.
      * exfalso. rewrite (Hrefused _ _ Hq) in Hrun.
        injection Hrun as <- <-. discriminate.
    + exfalso. rewrite (Hrefused _ _ Hq) in Hrun.
      injection Hrun as <- <-. discriminate.
Qed.
End ShowingOne.

(** ** Requests without credentials *)

Lemma dispatch_anonymous (handler : View -> M Response) (self : View) (w : World) :
  user (request self) = None ->
  dispatch [IsAuthenticated] handler self w =
    (inl (mkResponse HTTP_403_FORBIDDEN
            (Detail "Authentication credentials were not provided.")), w).
Proof.
  intros Hanon. unfold dispatch, check_permissions, respond, mbind, M_bind, bind.
  simpl. rewrite Hanon. reflexivity.
Qed.

Lemma dispatch_authenticated (handler : View -> M Response) (self : View)
    (u : User) (w : World) :
  user (request self) = Some u ->
  dispatch [IsAuthenticated] handler self w = respond (handler self) w.
Proof.
  intros Hu. unfold dispatch, check_permissions, respond, mbind, M_bind, bind.
  simpl. rewrite Hu. reflexivity.
Qed.

(** C7: a request without credentials to create, edit, deactivate or
    activate a profile, or to the current user's detail, is answered 403
    "Authentication credentials were not provided." before any handler
    runs, whatever the handler is, and the state is left as it was. *)
Theorem anonymous_mutation_forbidden (handler : View -> M Response) (self : View)
    (w : World) :
  user (request self) = None ->
  let forbidden :=
    (inl (mkResponse HTTP_403_FORBIDDEN
            (Detail "Authentication credentials were not provided.")), w) in
  dispatch CreateProfileAPIView.permission_classes handler self w = forbidden
  /\ dispatch EditUserProfileAPIView.permission_classes handler self w = forbidden
  /\ dispatch DeactivateProfileAPIView.permission_classes handler self w = forbidden
  /\ dispatch ActivateProfileAPIView.permission_classes handler self w = forbidden
  /\ dispatch UserRetrieveUpdateAPIView.permission_classes handler self w = forbidden.
Proof.
  intros Hanon forbidden. repeat split; apply dispatch_anonymous; exact Hanon.
Qed.

(** ** Creation *)

Section Creation.
Context `{Collaborators}.

Lemma perform_create_deactivated (self : View) (fields : ProfileFields)
    (u : User) (p : UserProfile) (w : World) :
  user (request self) = Some u ->
  validate_avatar (data (request self) !! "avatar") w = (inr tt, w) ->
  has_profile w u p ->
  active_profile p = false ->
  CreateProfileAPIView.perform_create self fields w =
    (inl (APIException "You deactivated your profile. Please activate to continue"),
     w).
Proof.
  intros Hu Hav Hp Hflag. unfold CreateProfileAPIView.perform_create,
    CreateProfileAPIView.queryset.
  run_handler. rewrite Hav, Hu. simpl.
  rewrite (qs_get_one _ _ w p); [reflexivity|].
  rewrite (has_profile_flag w u p false Hp), Hflag. reflexivity.
Qed.

Lemma perform_create_duplicate (self : View) (fields : ProfileFields)
    (u : User) (p : UserProfile) (w : World) :
  user (request self) = Some u ->
  validate_avatar (data (request self) !! "avatar") w = (inr tt, w) ->
  has_profile w u p ->
  active_profile p = true ->
  CreateProfileAPIView.perform_create self fields w =
    (inl (APIException "A user with this profile already exists"),
     mkWorld (profiles w) HTTP_400_BAD_REQUEST).
Proof.
  intros Hu Hav Hp Hflag. unfold CreateProfileAPIView.perform_create,
    CreateProfileAPIView.queryset.
  run_handler. rewrite Hav, Hu. simpl.
  rewrite (qs_get_none _ _ w);
    [|rewrite (has_profile_flag w u p false Hp), Hflag; reflexivity].
  unfold ProfileSerializer_create.
  destruct (has_profile_In w u p Hp) as [Hin Hid].
  assert (Hex : existsb (fun r => username_id r =? id u) (profiles w) = true).
  { apply existsb_exists. exists p. split; [exact Hin|]. apply Z.eqb_eq. exact Hid. }
  rewrite Hex. reflexivity.
Qed.

(** A second creation by a user whose profile is active: the store's
    integrity violation is caught and answered 400 with a message, and
    no row is added. *)
Lemma create_duplicate_conflict (self : View) (fields : ProfileFields)
    (u : User) (p : UserProfile) (w : World) :
  user (request self) = Some u ->
  ProfileSerializer_run_validation false (data (request self)) w = (inr fields, w) ->
  validate_avatar (data (request self) !! "avatar") w = (inr tt, w) ->
  has_profile w u p ->
  active_profile p = true ->
  respond (CreateProfileAPIView.create self) w =
    (inl (mkResponse HTTP_400_BAD_REQUEST
            (Message "A user with this profile already exists")),
     mkWorld (profiles w) HTTP_400_BAD_REQUEST).
Proof.
  intros Hu Hval Hav Hp Hflag.
  unfold respond, CreateProfileAPIView.create, mbind, M_bind, bind.
  rewrite Hval, (perform_create_duplicate self fields u p w Hu Hav Hp Hflag).
  reflexivity.
Qed.

(** C9: the branch of profile creation that raises "You deactivated
    your profile. Please activate to continue" assigns no status: the
    response carries whatever [APIException.status_code] holds when
    the request arrives, and leaves it as it is. *)
Theorem deactivated_creation_status (self : View) (fields : ProfileFields)
    (u : User) (p : UserProfile) (w : World) :
  user (request self) = Some u ->
  ProfileSerializer_run_validation false (data (request self)) w = (inr fields, w) ->
  validate_avatar (data (request self) !! "avatar") w = (inr tt, w) ->
  has_profile w u p ->
  active_profile p = false ->
  respond (CreateProfileAPIView.create self) w =
    (inl (mkResponse (status_code w)
            (Message "You deactivated your profile. Please activate to continue")),
     w).
Proof.
  intros Hu Hval Hav Hp Hflag.
  unfold respond, CreateProfileAPIView.create, mbind, M_bind, bind.
  rewrite Hval, (perform_create_deactivated self fields u p w Hu Hav Hp Hflag).
  reflexivity.
Qed.
End Creation.

Example creation_status_follows_history :
  let w0 := fresh_process [alice_inactive] in
  let create :=
    respond (@CreateProfileAPIView.create lenient (request_of POST (Some alice) ∅ None)) in
  let said s :=
    inl (mkResponse s
           (Message "You deactivated your profile. Please activate to continue")) in
  fst (create w0) = said HTTP_500_INTERNAL_SERVER_ERROR
  /\ fst (create (snd (respond (DeactivateProfileAPIView.update
                                  (request_of PUT (Some alice) ∅ None)) w0)))
     = said HTTP_400_BAD_REQUEST
  /\ fst (create (snd (respond (@EditUserProfileAPIView.update lenient false
                                  (request_of PUT (Some bob) ∅ None)) w0)))
     = said HTTP_404_NOT_FOUND.
Proof. vm_compute. repeat split. Qed.

(** C4: a user whose profile is inactive asks to create a profile in a
    process that has raised no error yet. No row is added, but the answer
    is status 500 with the reactivation message, not a 400-class conflict
    error. *)
Theorem create_over_inactive_profile_fresh :
  respond (@CreateProfileAPIView.create lenient (request_of POST (Some alice) ∅ None))
          (fresh_process [alice_inactive])
  = (inl (mkResponse HTTP_500_INTERNAL_SERVER_ERROR
            (Message "You deactivated your profile. Please activate to continue")),
     fresh_process [alice_inactive]).
Proof. vm_compute. reflexivity. Qed.

(** ** Editing *)

Section Editing.
Context `{Collaborators}.

Lemma edit_get_object_owner (self : View) (u : User) (p : UserProfile) (w : World) :
user (request self) = Some u ->
truthy (data (request self) !! "avatar") = false ->
has_profile w u p ->
EditUserProfileAPIView.get_object self w = (inr p, w).
Proof.
intros Hu Hav Hp. unfold EditUserProfileAPIView.get_object,
  EditUserProfileAPIView.queryset.
run_handler. rewrite Hav, Hu. simpl.
rewrite (has_profile_get w u p Hp). reflexivity.
Qed.

(** An edit goes through whatever the activation flag of the profile. *)
Lemma edit_ignores_activation (self : View) (fields : ProfileFields)
  (u : User) (p : UserProfile) (w : World) :
user (request self) = Some u ->
truthy (data (request self) !! "avatar") = false ->
ProfileSerializer_run_validation false (data (request self)) w = (inr fields, w) ->
has_profile w u p ->
exists p',
  respond (EditUserProfileAPIView.update false self) w =
    (inl (mkResponse HTTP_200_OK (Profile (ProfileSerializer_data p'))),
     mkWorld (rewrite_row p' (profiles w)) (status_code w))
  /\ active_profile p' = active_profile p
  /\ bio p' = default (bio p) (field_bio fields).
Proof.
intros Hu Hav Hval Hp. eexists. split.
- unfold respond, EditUserProfileAPIView.update, mbind, M_bind, bind.
  rewrite (edit_get_object_owner self u p w Hu Hav Hp), Hval.
  unfold ProfileSerializer_update, Model_save, mbind, M_bind, bind. reflexivity.
- split; reflexivity.
Qed.
End Editing.

(** C1: a user whose profile is inactive edits the profile. The edit is
    answered 200 and the new bio is stored; no error tells the user to
    reactivate first. *)
Theorem edit_inactive_profile_accepted :
  respond (@EditUserProfileAPIView.update lenient false
             (request_of PUT (Some alice) {[ "bio" := "hello" ]} None))
          (fresh_process [alice_inactive])
  = (inl (mkResponse HTTP_200_OK
            (Profile (mkProfileData "alice" None "hello" false))),
     fresh_process [mkProfile 1 alice None "hello" false]).
Proof. vm_compute. reflexivity. Qed.

(** ** Whose profile a request acts on *)






(** ** The statements at sample requests *)

Lemma repeated_transition_rejected_witness :
  respond (DeactivateProfileAPIView.update (request_of PUT (Some alice) ∅ None))
          (fresh_process [alice_inactive; bob_active])
  = (inl (mkResponse HTTP_400_BAD_REQUEST
            (Message "You deactivated your profile. Please activate to continue")),
     mkWorld [alice_inactive; bob_active] HTTP_400_BAD_REQUEST)
  /\
  respond (ActivateProfileAPIView.update (request_of PUT (Some alice) ∅ None))
          (fresh_process [alice_active; bob_active])
  = (inl (mkResponse HTTP_400_BAD_REQUEST
            (Message "Your profile is already active and viewable by other users")),
     mkWorld [alice_active; bob_active] HTTP_400_BAD_REQUEST)
  /\
  respond (DeactivateProfileAPIView.update (request_of PATCH (Some alice) ∅ None))
          (fresh_process [alice_inactive; bob_active])
  = (inr TypeError, fresh_process [alice_inactive; bob_active]).
Proof.
  split; [|split].
  - apply (proj1 (repeated_transition_rejected
                    (request_of PUT (Some alice) ∅ None) alice alice_inactive
                    (fresh_process [alice_inactive; bob_active])
                    eq_refl eq_refl)).
    reflexivity.
  - apply (proj1 (proj2 (repeated_transition_rejected
                    (request_of PUT (Some alice) ∅ None) alice alice_active
                    (fresh_process [alice_active; bob_active])
                    eq_refl eq_refl))).
    reflexivity.
  - apply (proj1 (repeated_transition_rejected
                    (request_of PATCH (Some alice) ∅ None) alice alice_inactive
                    (fresh_process [alice_inactive; bob_active])
                    eq_refl eq_refl)).
    reflexivity.
Defined.

Lemma sample_keys_distinct :
  List.NoDup (map pk [alice_active; bob_active; carol_inactive]).
Proof.
  simpl. repeat constructor; simpl; intros Hin;
    repeat (destruct Hin as [Hin|Hin]; [discriminate Hin|]); exact Hin.
Defined.


Lemma list_without_active_profile_witness :
  respond (ViewAllProfilesAPIView.list (request_of GET None ∅ None))
          (fresh_process [alice_inactive; carol_inactive])
  = (inl (mkResponse HTTP_404_NOT_FOUND (Message "No user profiles found")),
     mkWorld [alice_inactive; carol_inactive] HTTP_404_NOT_FOUND).
Proof.
  apply (list_without_active_profile (request_of GET None ∅ None)
           (fresh_process [alice_inactive; carol_inactive])).
  reflexivity.
Defined.

Lemma list_keyed_by_username_witness :
  exists d : gmap string ProfileData,
    body sample_listing = Profiles d
    /\ d !! "alice" = Some (ProfileSerializer_data alice_active)
    /\ d !! "carol" <> Some (ProfileSerializer_data carol_inactive).
Proof.
  destruct (list_keyed_by_username (request_of GET None ∅ None)
              sample_world sample_world sample_listing eq_refl eq_refl)
    as (d & Hbody & _ & _ & _ & Hunique & Hout).
  exists d. split; [exact Hbody|]. split.
  - apply (Hunique alice_active); [left; reflexivity | reflexivity |].
    intros q [<-|[<-|[<-|[]]]]; [reflexivity | discriminate | discriminate].
  - apply Hout. reflexivity.
Defined.

Lemma retrieve_profile_witness :
  let retrieve := @ViewUserProfileAPIView.retrieve ascii_digits_only in
  dispatch ViewUserProfileAPIView.permission_classes retrieve
           (request_of GET None ∅ (Some "abc")) sample_world
  = (inl (mkResponse HTTP_400_BAD_REQUEST (Message "User ID must be an integer")),
     mkWorld (profiles sample_world) HTTP_400_BAD_REQUEST)
  /\
  dispatch ViewUserProfileAPIView.permission_classes retrieve
           (request_of GET None ∅ (Some "3")) sample_world
  = (inl (mkResponse HTTP_404_NOT_FOUND (Message "User profile does not exist")),
     mkWorld (profiles sample_world) HTTP_404_NOT_FOUND)
  /\
  exists p, In p (profiles sample_world) /\ active_profile p = true
            /\ @builtin_int ascii_digits_only "2" = Some (username_id p)
            /\ ProfileSerializer_data bob_active = ProfileSerializer_data p.
Proof.
  split; [|split].
  - apply (proj1 (@retrieve_profile ascii_digits_only
                    (request_of GET None ∅ (Some "abc")) "abc"
                    sample_world eq_refl eq_refl)).
    reflexivity.
  - apply (proj1 (proj2 (@retrieve_profile ascii_digits_only
                           (request_of GET None ∅ (Some "3")) "3"
                           sample_world eq_refl eq_refl)) 3);
      reflexivity.
  - destruct (proj2 (proj2 (@retrieve_profile ascii_digits_only
                              (request_of GET None ∅ (Some "2")) "2"
                              sample_world eq_refl eq_refl))
                (mkResponse HTTP_200_OK (Profile (ProfileSerializer_data bob_active)))
                sample_world (ProfileSerializer_data bob_active) eq_refl eq_refl)
      as (p & Hin & Hflag & Hid & Hdata & _).
    exists p. auto.
Defined.

Lemma anonymous_mutation_forbidden_witness :
  dispatch DeactivateProfileAPIView.permission_classes
           DeactivateProfileAPIView.update
           (request_of PUT None ∅ None) sample_world
  = (inl (mkResponse HTTP_403_FORBIDDEN
            (Detail "Authentication credentials were not provided.")),
     sample_world).
Proof.
  apply (anonymous_mutation_forbidden DeactivateProfileAPIView.update
           (request_of PUT None ∅ None) sample_world eq_refl).
Defined.


Lemma deactivated_creation_status_witness :
  respond (@CreateProfileAPIView.create lenient (request_of POST (Some carol) ∅ None))
          sample_world
  = (inl (mkResponse HTTP_500_INTERNAL_SERVER_ERROR
            (Message "You deactivated your profile. Please activate to continue")),
     sample_world).
Proof.
  apply (@deactivated_creation_status lenient
           (request_of POST (Some carol) ∅ None) (mkProfileFields None None)
           carol carol_inactive sample_world); reflexivity.
Defined.

(** * Further properties of the views *)

(** ** The table under a rewrite *)

Lemma qs_get_world (q c : QuerySet) (w w' : World) (o : exn + UserProfile) :
  qs_get q c w = (o, w') -> w' = w.
Proof.
  unfold qs_get. destruct (evaluate (qs_filter q c) w) as [|r [|r' rows]];
    intros E; inversion E; reflexivity.
Qed.

Lemma rewrite_row_map {B} (f : UserProfile -> B) (p' : UserProfile)
    (rows : list UserProfile) :
  (forall r, In r rows -> pk r = pk p' -> f p' = f r) ->
  map f (rewrite_row p' rows) = map f rows.
Proof.
  induction rows as [|r rows IH]; simpl; intros Hsame; [reflexivity|].
  rewrite IH by (intros r' Hin; apply Hsame; right; exact Hin).
  destruct (Z.eqb_spec (pk r) (pk p')) as [E|E]; [|reflexivity].
  rewrite (Hsame r (or_introl eq_refl) E). reflexivity.
Qed.

Lemma rewrite_row_pk (p' : UserProfile) (rows : list UserProfile) :
  map pk (rewrite_row p' rows) = map pk rows.
Proof. apply rewrite_row_map. intros r _ E. symmetry. exact E. Qed.

Lemma pk_determines_row (rows : list UserProfile) (p q : UserProfile) :
  List.NoDup (map pk rows) -> In p rows -> In q rows -> pk p = pk q -> p = q.
Proof.
  induction rows as [|r rows IH]; simpl; intros Hnd Hp Hq E; [contradiction|].
  inversion Hnd as [|x xs Hnotin Hnd']; subst.
  destruct Hp as [->|Hp], Hq as [->|Hq].
  - reflexivity.
  - exfalso. apply Hnotin. rewrite E. apply in_map. exact Hq.
  - exfalso. apply Hnotin. rewrite <- E. apply in_map. exact Hp.
  - apply IH; assumption.
Qed.

Lemma rewrite_row_owner_map (p p' : UserProfile) (rows : list UserProfile) :
  List.NoDup (map pk rows) -> In p rows ->
  pk p' = pk p -> username p' = username p ->
  map username_id (rewrite_row p' rows) = map username_id rows.
Proof.
  intros Hnd Hin Hpk Hname. apply rewrite_row_map. intros r Hr E.
  assert (r = p) as -> by (apply (pk_determines_row rows); congruence).
  unfold username_id. rewrite Hname. reflexivity.
Qed.

Lemma rewrite_row_id (p : UserProfile) (rows : list UserProfile) :
  List.NoDup (map pk rows) -> In p rows -> rewrite_row p rows = rows.
Proof.
  intros Hnd Hin. unfold rewrite_row. rewrite <- (map_id rows) at 2.
  apply map_ext_in. intros r Hr.
  destruct (Z.eqb_spec (pk r) (pk p)) as [E|E]; [|reflexivity].
  apply (pk_determines_row rows); auto.
Qed.

Lemma rewrite_row_twice (p' p'' : UserProfile) (rows : list UserProfile) :
  pk p'' = pk p' ->
  rewrite_row p'' (rewrite_row p' rows) = rewrite_row p'' rows.
Proof.
  intros Hpk. unfold rewrite_row. rewrite map_map. apply map_ext. intros r.
  destruct (Z.eqb_spec (pk r) (pk p')) as [E|E].
  - rewrite Hpk, Z.eqb_refl. rewrite E, <- Hpk, Z.eqb_refl. reflexivity.
  - reflexivity.
Qed.

Lemma rewrite_row_others (c : QuerySet) (p p' : UserProfile) (rows : list UserProfile) :
  List.NoDup (map pk rows) -> In p rows -> pk p' = pk p ->
  c p = false -> c p' = false ->
  List.filter c (rewrite_row p' rows) = List.filter c rows.
Proof.
  intros Hnd Hin Hpk Hp Hp'.
  induction rows as [|r rows IH]; simpl; [reflexivity|].
  inversion Hnd as [|x xs Hnotin Hnd']; subst.
  destruct (Z.eqb_spec (pk r) (pk p')) as [E|E].
  - assert (r = p) as ->.
    { apply (pk_determines_row (r :: rows)); simpl; auto. congruence. }
    rewrite Hp, Hp'. fold (rewrite_row p' rows).
    rewrite rewrite_row_absent; [reflexivity|]. rewrite Hpk. exact Hnotin.
  - destruct Hin as [->|Hin]; [congruence|].
    fold (rewrite_row p' rows). rewrite IH by assumption. reflexivity.
Qed.

Lemma wf_table_rewrite (p p' : UserProfile) (rows : list UserProfile) :
  wf_table rows -> In p rows -> pk p' = pk p -> username p' = username p ->
  wf_table (rewrite_row p' rows).
Proof.
  intros [Hpk Hown] Hin E Hname. split.
  - rewrite rewrite_row_pk. exact Hpk.
  - rewrite (rewrite_row_owner_map p p' rows Hpk Hin E Hname). exact Hown.
Qed.

(** ** Deactivation and activation, case by case *)

Lemma deactivate_get_object_cases (self : View) (w : World) :
  DeactivateProfileAPIView.get_object self w =
  match evaluate (username_id_is (request_user_id self)) w with
  | [p] =>
      if active_profile p then (inr p, w)
      else (inl (APIException
                   "You deactivated your profile. Please activate to continue"),
            mkWorld (profiles w) HTTP_400_BAD_REQUEST)
  | _ => (inl (APIException "User profile not found"),
          mkWorld (profiles w) HTTP_404_NOT_FOUND)
  end.
Proof.
  unfold DeactivateProfileAPIView.get_object, DeactivateProfileAPIView.queryset.
  unfold get_object_or_404, qs_get, mbind, M_bind, bind, try_except,
    try_except_else, except_Exception, except_Http404, set_status_code, raise,
    mret, M_ret, ret.
  rewrite !evaluate_objects_all.
  destruct (evaluate (username_id_is (request_user_id self)) w)
    as [|p [|p' rows]] eqn:Hrows; try reflexivity.
  rewrite evaluate_objects_all, evaluate_qs_filter, Hrows.
  simpl. unfold active_profile_is. destruct (active_profile p); reflexivity.
Qed.

Lemma activate_get_object_cases (self : View) (w : World) :
  ActivateProfileAPIView.get_object self w =
  match evaluate (username_id_is (request_user_id self)) w with
  | [p] =>
      if active_profile p
      then (inl (APIException
                   "Your profile is already active and viewable by other users"),
            mkWorld (profiles w) HTTP_400_BAD_REQUEST)
      else (inr p, w)
  | _ => (inl (APIException "User profile not found"),
          mkWorld (profiles w) HTTP_404_NOT_FOUND)
  end.
Proof.
  unfold ActivateProfileAPIView.get_object, ActivateProfileAPIView.queryset.
  unfold get_object_or_404, qs_get, mbind, M_bind, bind, try_except,
    try_except_else, except_Exception, except_Http404, set_status_code, raise,
    mret, M_ret, ret.
  rewrite !evaluate_objects_all.
  destruct (evaluate (username_id_is (request_user_id self)) w)
    as [|p [|p' rows]] eqn:Hrows; try reflexivity.
  rewrite evaluate_objects_all, evaluate_qs_filter, Hrows.
  simpl. unfold active_profile_is. destruct (active_profile p); reflexivity.
Qed.

Lemma toggle_type_error (self : View) (w : World) :
  update_keywords self <> [] ->
  respond (DeactivateProfileAPIView.update self) w = (inr TypeError, w)
  /\ respond (ActivateProfileAPIView.update self) w = (inr TypeError, w).
Proof.
  intros Hkw. unfold respond, DeactivateProfileAPIView.update,
    ActivateProfileAPIView.update.
  rewrite !call_with_keywords by exact Hkw. split; reflexivity.
Qed.

Lemma deactivate_update_cases (self : View) (w : World) :
  update_keywords self = [] ->
  respond (DeactivateProfileAPIView.update self) w =
  match evaluate (username_id_is (request_user_id self)) w with
  | [p] =>
      if active_profile p
      then (inl (mkResponse HTTP_200_OK (Activation false)),
            mkWorld (rewrite_row (set_active p false) (profiles w)) (status_code w))
      else (inl (mkResponse HTTP_400_BAD_REQUEST
                   (Message "You deactivated your profile. Please activate to continue")),
            mkWorld (profiles w) HTTP_400_BAD_REQUEST)
  | _ => (inl (mkResponse HTTP_404_NOT_FOUND (Message "User profile not found")),
          mkWorld (profiles w) HTTP_404_NOT_FOUND)
  end.
Proof.
  intros Hkw. unfold respond, DeactivateProfileAPIView.update.
  rewrite call_bare by exact Hkw. unfold mbind, M_bind, bind.
  rewrite deactivate_get_object_cases.
  destruct (evaluate (username_id_is (request_user_id self)) w) as [|p [|p' rows]];
    try reflexivity.
  destruct (active_profile p); reflexivity.
Qed.

Lemma activate_update_cases (self : View) (w : World) :
  update_keywords self = [] ->
  respond (ActivateProfileAPIView.update self) w =
  match evaluate (username_id_is (request_user_id self)) w with
  | [p] =>
      if active_profile p
      then (inl (mkResponse HTTP_400_BAD_REQUEST
                   (Message "Your profile is already active and viewable by other users")),
            mkWorld (profiles w) HTTP_400_BAD_REQUEST)
      else (inl (mkResponse HTTP_200_OK (Activation true)),
            mkWorld (rewrite_row (set_active p true) (profiles w)) (status_code w))
  | _ => (inl (mkResponse HTTP_404_NOT_FOUND (Message "User profile not found")),
          mkWorld (profiles w) HTTP_404_NOT_FOUND)
  end.
Proof.
  intros Hkw. unfold respond, ActivateProfileAPIView.update.
  rewrite call_bare by exact Hkw. unfold mbind, M_bind, bind.
  rewrite activate_get_object_cases.
  destruct (evaluate (username_id_is (request_user_id self)) w) as [|p [|p' rows]];
    try reflexivity.
  destruct (active_profile p); reflexivity.
Qed.

Lemma evaluate_In (c : QuerySet) (w : World) (p : UserProfile) :
  In p (evaluate c w) <-> In p (profiles w) /\ c p = true.
Proof. unfold evaluate. apply List.filter_In. Qed.

Lemma evaluate_singleton (c : QuerySet) (w : World) (p : UserProfile) :
  evaluate c w = [p] -> In p (profiles w) /\ c p = true.
Proof.
  intros E. apply evaluate_In. rewrite E. left. reflexivity.
Qed.

(** The call the framework makes for a PUT without URL capture is always
    answered by deactivation and activation with a status of their own:
    200, 400 or 404, never a status left over from an earlier request.
    An error leaves the table as it was and the class attribute at the
    status answered; a success leaves the class attribute as it was. A
    call that carries a keyword argument, which is every PATCH and every
    request routed with a capture, ends in an unhandled [TypeError] and
    changes nothing. *)
Theorem toggle_always_answers (self : View) (w : World) :
  (update_keywords self = [] ->
   answers_with_own_status w (respond (DeactivateProfileAPIView.update self) w)
   /\ answers_with_own_status w (respond (ActivateProfileAPIView.update self) w))
  /\ (update_keywords self <> [] ->
      respond (DeactivateProfileAPIView.update self) w = (inr TypeError, w)
      /\ respond (ActivateProfileAPIView.update self) w = (inr TypeError, w))
  /\ (method (request self) = PUT -> kwargs self = ∅ -> update_keywords self = [])
  /\ (method (request self) = PATCH -> update_keywords self <> [])
  /\ (forall k v, kwargs self !! k = Some v -> update_keywords self <> []).
Proof.
  split; [|split; [|split; [|split]]].
  - intros Hkw. unfold answers_with_own_status. split.
    + rewrite (deactivate_update_cases self w Hkw).
      destruct (evaluate (username_id_is (request_user_id self)) w) as [|p [|p' rows]];
        try (eexists _, _; split; [reflexivity|]; right; simpl; auto).
      destruct (active_profile p); eexists _, _; (split; [reflexivity|]);
        [left|right]; simpl; auto.
    + rewrite (activate_update_cases self w Hkw).
      destruct (evaluate (username_id_is (request_user_id self)) w) as [|p [|p' rows]];
        try (eexists _, _; split; [reflexivity|]; right; simpl; auto).
      destruct (active_profile p); eexists _, _; (split; [reflexivity|]);
        [right|left]; simpl; auto.
  - apply toggle_type_error.
  - apply update_keywords_put.
  - apply update_keywords_patch.
  - apply update_keywords_capture.
Qed.

(** An authenticated user without a profile who asks, with a PUT routed
    without capture, to deactivate or to activate is answered 404 "User
    profile not found"; the table is left as it was. *)
Theorem toggle_without_profile (self : View) (u : User) (w : World) :
  method (request self) = PUT ->
  kwargs self = ∅ ->
  user (request self) = Some u ->
  evaluate (username_id_is (Some (id u))) w = [] ->
  let not_found :=
    (inl (mkResponse HTTP_404_NOT_FOUND (Message "User profile not found")),
     mkWorld (profiles w) HTTP_404_NOT_FOUND) in
  dispatch DeactivateProfileAPIView.permission_classes
           DeactivateProfileAPIView.update self w = not_found
  /\ dispatch ActivateProfileAPIView.permission_classes
              ActivateProfileAPIView.update self w = not_found.
Proof.
  intros Hput Hkwargs Hu Hnone not_found.
  pose proof (update_keywords_put self Hput Hkwargs) as Hkw.
  assert (Hid : request_user_id self = Some (id u))
    by (unfold request_user_id; rewrite Hu; reflexivity).
  unfold DeactivateProfileAPIView.permission_classes,
    ActivateProfileAPIView.permission_classes.
  rewrite !(dispatch_authenticated _ self u w Hu).
  rewrite (deactivate_update_cases self w Hkw), (activate_update_cases self w Hkw).
  rewrite Hid, Hnone. split; reflexivity.
Qed.

(** Deactivating an active profile and then activating it again, each
    with a PUT routed without capture, answers 200 both times and
    restores the table, row for row. *)
Theorem deactivate_then_activate (self : View) (u : User) (p : UserProfile) (w : World) :
  method (request self) = PUT ->
  kwargs self = ∅ ->
  user (request self) = Some u ->
  has_profile w u p ->
  active_profile p = true ->
  List.NoDup (map pk (profiles w)) ->
  exists w1,
    respond (DeactivateProfileAPIView.update self) w
      = (inl (mkResponse HTTP_200_OK (Activation false)), w1)
    /\ respond (ActivateProfileAPIView.update self) w1
      = (inl (mkResponse HTTP_200_OK (Activation true)), w).
Proof.
  intros Hput Hkwargs Hu Hp Hflag Hnd.
  pose proof (update_keywords_put self Hput Hkwargs) as Hkw.
  assert (Hid : request_user_id self = Some (id u))
    by (unfold request_user_id; rewrite Hu; reflexivity).
  eexists. split.
  - rewrite (deactivate_update_cases self w Hkw), Hid, Hp, Hflag. reflexivity.
  - rewrite (activate_update_cases self _ Hkw), Hid.
    rewrite (has_profile_saved w u p false Hp Hnd). simpl.
    rewrite rewrite_row_twice by reflexivity.
    assert (Hback : set_active (set_active p false) true = p).
    { destruct p as [k n a b f]. simpl in Hflag. subst f. reflexivity. }
    rewrite Hback. destruct (has_profile_In w u p Hp) as [Hin _].
    rewrite (rewrite_row_id p (profiles w) Hnd Hin). destruct w; reflexivity.
Qed.

(** Deactivation and activation change no other user's rows and keep
    the constraints of the table. *)
Theorem toggle_keeps_table (self : View) (w w' : World) (out : Response + exn) :
  wf_table (profiles w) ->
  respond (DeactivateProfileAPIView.update self) w = (out, w')
  \/ respond (ActivateProfileAPIView.update self) w = (out, w') ->
  wf_table (profiles w')
  /\ forall v, v <> request_user_id self ->
       evaluate (username_id_is v) w' = evaluate (username_id_is v) w.
Proof.
  intros Hwf Hrun.
  assert (Hcases :
    profiles w' = profiles w
    \/ exists p flag, evaluate (username_id_is (request_user_id self)) w = [p]
                      /\ profiles w' = rewrite_row (set_active p flag) (profiles w)).
  { destruct (update_keywords self) as [|k ks] eqn:Hkw.
    2: { left. destruct (toggle_type_error self w) as [Hd Ha]; [congruence|].
         destruct Hrun as [Hrun|Hrun]; congruence. }
    destruct Hrun as [Hrun|Hrun];
      [rewrite (deactivate_update_cases self w Hkw) in Hrun
      | rewrite (activate_update_cases self w Hkw) in Hrun];
      destruct (evaluate (username_id_is (request_user_id self)) w)
        as [|p [|p' rows]] eqn:Hrows;
      try (injection Hrun as _ <-; left; reflexivity);
      destruct (active_profile p);
      injection Hrun as _ <-; simpl; eauto. }
  destruct Hcases as [E|(p & flag & Hrows & E)].
  - unfold evaluate. rewrite E. split; [exact Hwf | reflexivity].
  - apply evaluate_singleton in Hrows as [Hin Hid]. rewrite E. split.
    + apply (wf_table_rewrite p); auto.
    + intros v Hv. unfold evaluate. rewrite E.
      assert (Hother : forall q, username q = username p -> username_id_is v q = false).
      { intros q Hq. destruct v as [n|]; simpl; [|reflexivity].
        apply Z.eqb_neq. intros Hn. apply Hv.
        destruct (request_user_id self) as [m|]; simpl in Hid; [|discriminate].
        apply Z.eqb_eq in Hid. unfold username_id in *. rewrite Hq in Hn. congruence. }
      apply (rewrite_row_others _ p); auto. apply (proj1 Hwf).
Qed.

(** ** Creation, case by case *)

Lemma NoDup_snoc {A} (l : list A) (x : A) :
  List.NoDup l -> ~ In x l -> List.NoDup (l ++ [x]).
Proof.
  induction l as [|a l IH]; simpl; intros Hnd Hx.
  - constructor; [intros []|constructor].
  - inversion Hnd as [|y ys Hnotin Hnd']; subst. constructor.
    + rewrite in_app_iff. intros [Hin|[->|[]]]; [exact (Hnotin Hin)|].
      apply Hx. left. reflexivity.
    + apply IH; [exact Hnd'|]. intros Hin. apply Hx. right. exact Hin.
Qed.

Lemma next_pk_above (rows : list UserProfile) (k : Z) :
  In k (map pk rows) -> k < next_pk rows.
Proof.
  unfold next_pk. induction rows as [|r rows IH]; simpl; [contradiction|].
  intros [<-|Hin]; [lia|]. specialize (IH Hin). lia.
Qed.

Lemma next_pk_fresh (rows : list UserProfile) : ~ In (next_pk rows) (map pk rows).
Proof. intros Hin. apply next_pk_above in Hin. lia. Qed.

Lemma existsb_owner_false (rows : list UserProfile) (n : Z) :
  existsb (fun r => username_id r =? n) rows = false <->
  List.filter (username_id_is (Some n)) rows = [].
Proof.
  induction rows as [|r rows IH]; simpl; [tauto|].
  destruct (username_id r =? n); simpl; [split; discriminate | exact IH].
Qed.

Lemma wf_table_insert (rows : list UserProfile) (p : UserProfile) :
  wf_table rows ->
  pk p = next_pk rows ->
  List.filter (username_id_is (Some (username_id p))) rows = [] ->
  wf_table (rows ++ [p]).
Proof.
  intros [Hpk Hown] Hnew Hfree. split; rewrite map_app; simpl; apply NoDup_snoc; auto.
  - rewrite Hnew. apply next_pk_fresh.
  - intros Hin. apply in_map_iff in Hin as (r & Hr & Hin).
    apply (filter_nil_not_In _ _ r Hfree); [|exact Hin].
    simpl. apply Z.eqb_eq. exact Hr.
Qed.

Section CreationCases.
Context `{Collaborators}.

Lemma perform_create_cases (self : View) (fields : ProfileFields) (u : User) (w : World) :
  user (request self) = Some u ->
  validate_avatar (data (request self) !! "avatar") w = (inr tt, w) ->
  CreateProfileAPIView.perform_create self fields w =
  match evaluate (qs_filter (username_id_is (Some (id u))) (active_profile_is false)) w with
  | [] =>
      if existsb (fun r => username_id r =? id u) (profiles w)
      then (inl (APIException "A user with this profile already exists"),
            mkWorld (profiles w) HTTP_400_BAD_REQUEST)
      else
        let p := mkProfile (next_pk (profiles w)) u (field_avatar fields)
                           (default "" (field_bio fields)) true in
        (inr p, mkWorld (profiles w ++ [p]) (status_code w))
  | [_] => (inl (APIException
                   "You deactivated your profile. Please activate to continue"), w)
  | _ :: _ :: _ => (inl MultipleObjectsReturned, w)
  end.
Proof.
  intros Hu Hav. unfold CreateProfileAPIView.perform_create,
    CreateProfileAPIView.queryset.
  unfold get_object_or_404, qs_get, mbind, M_bind, bind, try_except,
    try_except_else, except_Http404, except_IntegrityError, set_status_code,
    raise, mret, M_ret, ret, request_user_id.
  rewrite Hav, Hu. simpl. rewrite evaluate_objects_all.
  destruct (evaluate (qs_filter (username_id_is (Some (id u)))
                        (active_profile_is false)) w) as [|r [|r' rows]];
    try reflexivity.
  unfold ProfileSerializer_create.
  destruct (existsb (fun r => username_id r =? id u) (profiles w)); reflexivity.
Qed.

(** The first creation by a user who owns no row is answered 201 with
    the new profile; exactly one row is added, at the end of the table,
    under a fresh primary key and owned by the requester, who then has
    that profile. The class attribute is left as it was. *)
Theorem create_first_profile (self : View) (fields : ProfileFields) (u : User) (w : World) :
  user (request self) = Some u ->
  ProfileSerializer_run_validation false (data (request self)) w = (inr fields, w) ->
  validate_avatar (data (request self) !! "avatar") w = (inr tt, w) ->
  evaluate (username_id_is (Some (id u))) w = [] ->
  exists p,
    respond (CreateProfileAPIView.create self) w =
      (inl (mkResponse HTTP_201_CREATED (Profile (ProfileSerializer_data p))),
       mkWorld (profiles w ++ [p]) (status_code w))
    /\ username p = u
    /\ ~ In (pk p) (map pk (profiles w))
    /\ has_profile (mkWorld (profiles w ++ [p]) (status_code w)) u p.
Proof.
  intros Hu Hval Hav Hnone.
  pose proof (perform_create_cases self fields u w Hu Hav) as Hrun.
  rewrite evaluate_qs_filter, Hnone in Hrun. simpl in Hrun.
  assert (Hex : existsb (fun r => username_id r =? id u) (profiles w) = false)
    by (apply existsb_owner_false; exact Hnone).
  rewrite Hex in Hrun. eexists. split; [|split; [|split]].
  - unfold respond, CreateProfileAPIView.create, mbind, M_bind, bind.
    rewrite Hval, Hrun. reflexivity.
  - reflexivity.
  - apply next_pk_fresh.
  - unfold has_profile, evaluate in *. simpl.
    rewrite List.filter_app, Hnone. simpl.
    unfold username_id. simpl. rewrite Z.eqb_refl. reflexivity.
Qed.

(** A user who owns a row can never add a second one: whatever the
    state of the profile, creation is answered with an error message and
    the table is left as it was. *)
Theorem create_never_duplicates (self : View) (fields : ProfileFields)
    (u : User) (p : UserProfile) (w : World) :
  user (request self) = Some u ->
  ProfileSerializer_run_validation false (data (request self)) w = (inr fields, w) ->
  validate_avatar (data (request self) !! "avatar") w = (inr tt, w) ->
  has_profile w u p ->
  exists s m w',
    respond (CreateProfileAPIView.create self) w = (inl (mkResponse s (Message m)), w')
    /\ profiles w' = profiles w.
Proof.
  intros Hu Hval Hav Hp.
  pose proof (perform_create_cases self fields u w Hu Hav) as Hrun.
  rewrite evaluate_qs_filter, Hp in Hrun. simpl in Hrun.
  destruct (has_profile_In w u p Hp) as [Hin Hid].
  assert (Hex : existsb (fun r => username_id r =? id u) (profiles w) = true).
  { apply existsb_exists. exists p. split; [exact Hin|]. apply Z.eqb_eq. exact Hid. }
  unfold respond, CreateProfileAPIView.create, mbind, M_bind, bind.
  rewrite Hval, Hrun. unfold active_profile_is.
  destruct (active_profile p); simpl; [rewrite Hex|]; eexists _, _, _;
    split; reflexivity.
Qed.

(** Creation keeps the constraints of the table and changes no other
    user's rows, whatever it answers. *)
Theorem create_keeps_table (self : View) (fields : ProfileFields) (u : User)
    (w w' : World) (out : Response + exn) :
  user (request self) = Some u ->
  ProfileSerializer_run_validation false (data (request self)) w = (inr fields, w) ->
  validate_avatar (data (request self) !! "avatar") w = (inr tt, w) ->
  wf_table (profiles w) ->
  respond (CreateProfileAPIView.create self) w = (out, w') ->
  wf_table (profiles w')
  /\ forall v, v <> Some (id u) ->
       evaluate (username_id_is v) w' = evaluate (username_id_is v) w.
Proof.
  intros Hu Hval Hav Hwf Hrun.
  pose proof (perform_create_cases self fields u w Hu Hav) as Hcases.
  unfold respond, CreateProfileAPIView.create, mbind, M_bind, bind in Hrun.
  rewrite Hval, Hcases in Hrun. clear Hcases.
  assert (Hsame : profiles w' = profiles w ->
    wf_table (profiles w')
    /\ forall v, v <> Some (id u) ->
         evaluate (username_id_is v) w' = evaluate (username_id_is v) w).
  { intros E. unfold evaluate. rewrite E. split; [exact Hwf | reflexivity]. }
  destruct (evaluate (qs_filter (username_id_is (Some (id u)))
                        (active_profile_is false)) w) as [|r [|r' rows]].
  - destruct (existsb (fun r => username_id r =? id u) (profiles w)) eqn:Hex.
    + apply Hsame. simpl in Hrun. injection Hrun as _ <-. reflexivity.
    + simpl in Hrun. injection Hrun as _ <-. simpl.
      apply existsb_owner_false in Hex. split.
      * apply wf_table_insert; [exact Hwf | reflexivity | exact Hex].
      * intros v Hv. unfold evaluate. simpl. rewrite List.filter_app. simpl.
        assert (Hno : username_id_is v
                 (mkProfile (next_pk (profiles w)) u (field_avatar fields)
                            (default "" (field_bio fields)) true) = false).
        { destruct v as [n|]; simpl; [|reflexivity]. apply Z.eqb_neq.
          unfold username_id. simpl. congruence. }
        rewrite Hno. apply app_nil_r.
  - apply Hsame. simpl in Hrun. injection Hrun as _ <-. reflexivity.
  - apply Hsame. simpl in Hrun. injection Hrun as _ <-. reflexivity.
Qed.
End CreationCases.

(** ** Editing and the avatar check *)

Section EditingCases.
Context `{Collaborators}.

Lemma edit_get_object_cases (self : View) (w : World) :
  truthy (data (request self) !! "avatar") = false ->
  EditUserProfileAPIView.get_object self w =
  match evaluate (username_id_is (request_user_id self)) w with
  | [] => (inl (APIException "User profile not found. Please create one"),
           mkWorld (profiles w) HTTP_404_NOT_FOUND)
  | [p] => (inr p, w)
  | _ :: _ :: _ => (inl MultipleObjectsReturned, w)
  end.
Proof.
  intros Hav. unfold EditUserProfileAPIView.get_object, EditUserProfileAPIView.queryset.
  unfold qs_get, mbind, M_bind, bind, try_except, except_DoesNotExist,
    set_status_code, raise, mret, M_ret, ret.
  rewrite Hav, evaluate_objects_all.
  destruct (evaluate (username_id_is (request_user_id self)) w) as [|p [|p' rows]];
    reflexivity.
Qed.

(** An edit by a user who owns no row is answered 404 "User profile not
    found. Please create one" before the payload is validated, and the
    table is left as it was. *)
Theorem edit_without_profile (partial : bool) (self : View) (w : World) :
  truthy (data (request self) !! "avatar") = false ->
  evaluate (username_id_is (request_user_id self)) w = [] ->
  respond (EditUserProfileAPIView.update partial self) w =
    (inl (mkResponse HTTP_404_NOT_FOUND
            (Message "User profile not found. Please create one")),
     mkWorld (profiles w) HTTP_404_NOT_FOUND).
Proof.
  intros Hav Hnone.
  unfold respond, EditUserProfileAPIView.update, mbind, M_bind, bind.
  rewrite (edit_get_object_cases self w Hav), Hnone. reflexivity.
Qed.

(** The avatar check guards the two views differently. Creation hands
    the avatar to [validate_avatar] even when the body has none, and an
    exception of the check ends the request before the table is read.
    An edit hands it over only when it is a non-empty string; otherwise
    the lookup does not depend on the check at all. *)
Theorem avatar_check_order (self : View) (fields : ProfileFields) (w : World) :
  (forall e w1,
     validate_avatar (data (request self) !! "avatar") w = (inl e, w1) ->
     CreateProfileAPIView.perform_create self fields w = (inl e, w1))
  /\ (forall e w1,
        truthy (data (request self) !! "avatar") = true ->
        validate_avatar (data (request self) !! "avatar") w = (inl e, w1) ->
        EditUserProfileAPIView.get_object self w = (inl e, w1))
  /\ (truthy (data (request self) !! "avatar") = false ->
      EditUserProfileAPIView.get_object self w
      = @EditUserProfileAPIView.get_object lenient self w).
Proof.
  split; [|split].
  - intros e w1 Hav. unfold CreateProfileAPIView.perform_create, mbind, M_bind, bind.
    rewrite Hav. reflexivity.
  - intros e w1 Htruthy Hav.
    unfold EditUserProfileAPIView.get_object, mbind, M_bind, bind.
    rewrite Htruthy, Hav. reflexivity.
  - intros Hfalsy. unfold EditUserProfileAPIView.get_object, mbind, M_bind, bind.
    rewrite Hfalsy. reflexivity.
Qed.
End EditingCases.

(** ** Showing and listing, case by case *)

Lemma unique_owner_rows (rows : list UserProfile) (n : Z) :
  List.NoDup (map username_id rows) ->
  List.filter (username_id_is (Some n)) rows = []
  \/ exists p, List.filter (username_id_is (Some n)) rows = [p].
Proof.
  induction rows as [|r rows IH]; simpl; intros Hnd; [left; reflexivity|].
  inversion Hnd as [|x xs Hnotin Hnd']; subst.
  destruct (Z.eqb_spec (username_id r) n) as [E|E].
  - right. exists r. f_equal.
    destruct (List.filter (username_id_is (Some n)) rows) as [|q l] eqn:Hf;
      [reflexivity|].
    exfalso. apply Hnotin.
    assert (Hq : In q (List.filter (username_id_is (Some n)) rows))
      by (rewrite Hf; left; reflexivity).
    apply List.filter_In in Hq as [Hq Hid]. simpl in Hid. apply Z.eqb_eq in Hid.
    rewrite E, <- Hid. apply in_map. exact Hq.
  - apply IH. exact Hnd'.
Qed.

Lemma dispatch_read_only (handler : View -> M Response) (self : View) (w : World) :
  method (request self) = GET ->
  dispatch [IsAuthenticatedOrReadOnly] handler self w = respond (handler self) w.
Proof.
  intros Hget. unfold dispatch, check_permissions. simpl. rewrite Hget. reflexivity.
Qed.

Section ShowingCases.
Context `{UnicodeDatabase}.

Lemma retrieve_cases (self : View) (ident : string) (w : World) :
  kwargs self !! "username_id" = Some ident ->
  respond (ViewUserProfileAPIView.retrieve self) w =
  match builtin_int ident with
  | None =>
      (inl (mkResponse HTTP_400_BAD_REQUEST (Message "User ID must be an integer")),
       mkWorld (profiles w) HTTP_400_BAD_REQUEST)
  | Some n =>
      match evaluate (qs_filter (username_id_is (Some n)) (active_profile_is true)) w with
      | [_] =>
          match evaluate (username_id_is (Some n)) w with
          | [] => (inl (mkResponse HTTP_404_NOT_FOUND (Detail "Not found.")), w)
          | [r] => (inl (mkResponse HTTP_200_OK (Profile (ProfileSerializer_data r))), w)
          | _ :: _ :: _ => (inr MultipleObjectsReturned, w)
          end
      | _ =>
          (inl (mkResponse HTTP_404_NOT_FOUND (Message "User profile does not exist")),
           mkWorld (profiles w) HTTP_404_NOT_FOUND)
      end
  end.
Proof.
  intros Hk.
  destruct (builtin_int ident) as [n|] eqn:Hint.
  - destruct (evaluate (qs_filter (username_id_is (Some n)) (active_profile_is true)) w)
      as [|p [|p' rows]] eqn:Hp.
    + unfold respond, ViewUserProfileAPIView.retrieve,
        ViewUserProfileAPIView.get_object, mbind, M_bind, bind.
      rewrite (get_queryset_run self ident w Hk), Hint, Hp. reflexivity.
    + unfold respond, ViewUserProfileAPIView.retrieve, mbind, M_bind, bind.
      rewrite (get_object_run self ident n p w Hk Hint Hp).
      destruct (evaluate (username_id_is (Some n)) w) as [|r [|r' rows]]; reflexivity.
    + unfold respond, ViewUserProfileAPIView.retrieve,
        ViewUserProfileAPIView.get_object, mbind, M_bind, bind.
      rewrite (get_queryset_run self ident w Hk), Hint, Hp. reflexivity.
  - unfold respond, ViewUserProfileAPIView.retrieve,
      ViewUserProfileAPIView.get_object, mbind, M_bind, bind.
    rewrite (get_queryset_run self ident w Hk), Hint. reflexivity.
Qed.

(** The active profile of a user is shown to anyone who asks for it
    under an identifier that [int] reads as that user's id: 200 with the
    profile, and the state is left as it was. *)
Theorem retrieve_active_profile (self : View) (ident : string) (u : User)
    (p : UserProfile) (w : World) :
  method (request self) = GET ->
  kwargs self !! "username_id" = Some ident ->
  builtin_int ident = Some (id u) ->
  has_profile w u p ->
  active_profile p = true ->
  dispatch ViewUserProfileAPIView.permission_classes
           ViewUserProfileAPIView.retrieve self w
  = (inl (mkResponse HTTP_200_OK (Profile (ProfileSerializer_data p))), w).
Proof.
  intros Hget Hk Hint Hp Hflag.
  unfold ViewUserProfileAPIView.permission_classes.
  rewrite (dispatch_read_only _ self w Hget), (retrieve_cases self ident w Hk), Hint.
  unfold has_profile in Hp.
  rewrite evaluate_qs_filter, Hp. simpl. unfold active_profile_is. rewrite Hflag.
  simpl. rewrite ?Hp. reflexivity.
Qed.



End ShowingCases.

(** ** Identifiers made of digits *)

Lemma digit_of_range (c : ascii) (d : Z) :
  digit_of c = Some d ->
  48 <= Z.of_nat (nat_of_ascii c) <= 57 /\ 0 <= d <= 9.
Proof.
  unfold digit_of.
  destruct ((48 <=? Z.of_nat (nat_of_ascii c)) && (Z.of_nat (nat_of_ascii c) <=? 57))
    eqn:E; [|discriminate].
  intros [= <-]. apply andb_prop in E as [E1 E2]. lia.
Qed.

Lemma digit_not_space (c : ascii) (d : Z) : digit_of c = Some d -> is_space c = false.
Proof.
  intros Hd. apply digit_of_range in Hd as [Hc _]. unfold is_space.
  apply orb_false_intro; [apply andb_false_iff | apply Z.eqb_neq]; lia.
Qed.

Lemma digit_count_length (l : list ascii) : digit_count l <= Z.of_nat (length l).
Proof.
  unfold digit_count. apply inj_le. apply List.filter_length_le.
Qed.

Lemma string_length_list (s : string) :
  length (list_ascii_of_string s) = String.length s.
Proof. induction s as [|c s IH]; simpl; [reflexivity | rewrite IH; reflexivity]. Qed.

Lemma digits_are_ascii (l : list ascii) :
  forallb (fun c => bool_decide (is_Some (digit_of c))) l = true ->
  forallb (fun c => Z.of_nat (nat_of_ascii c) <? 128) l = true.
Proof.
  induction l as [|c l IH]; simpl; [reflexivity|]. intros Hall.
  apply andb_prop in Hall as [Hc Hall]. apply bool_decide_eq_true in Hc as [d Hd].
  apply digit_of_range in Hd as [Hc _]. rewrite (IH Hall), andb_true_r.
  apply Z.ltb_lt. lia.
Qed.

Lemma digit_not_char (c x : ascii) (d : Z) :
  digit_of c = Some d ->
  Z.of_nat (nat_of_ascii x) < 48 ->
  Ascii.eqb c x = false.
Proof.
  intros Hd Hx. apply digit_of_range in Hd as [Hc _].
  destruct (Ascii.eqb_spec c x) as [->|]; [lia | reflexivity].
Qed.

Lemma int_digits_accepts (l : list ascii) :
  forall acc after_digit,
  0 <= acc ->
  forallb (fun c => bool_decide (is_Some (digit_of c))) l = true ->
  l <> [] \/ after_digit = true ->
  exists n, 0 <= n /\ int_digits acc after_digit l = Some n.
Proof.
  induction l as [|c l IH]; intros acc after_digit Hacc Hall Hne.
  - destruct Hne as [Hne| ->]; [congruence|]. exists acc. auto.
  - simpl in Hall. apply andb_prop in Hall as [Hc Hall].
    apply bool_decide_eq_true in Hc as [d Hd]. simpl. rewrite Hd.
    apply digit_of_range in Hd as [_ Hd]. apply IH; [lia | exact Hall | auto].
Qed.

Lemma python_int_accepts_digits (s : string) :
  all_digits s = true ->
  (String.length s <= 4300)%nat ->
  exists n, 0 <= n /\ python_int s = Some n.
Proof.
  unfold all_digits, python_int. intros Hall Hlen.
  assert (Hlimit : (int_max_str_digits <? digit_count (list_ascii_of_string s)) = false).
  { apply Z.ltb_ge. pose proof (digit_count_length (list_ascii_of_string s)) as Hc.
    rewrite string_length_list in Hc. unfold int_max_str_digits. lia. }
  rewrite Hlimit. clear Hlimit Hlen. revert Hall.
  destruct (list_ascii_of_string s) as [|c l]; [discriminate|]. intros Hall.
  pose proof Hall as Hc. simpl in Hc. apply andb_prop in Hc as [Hc _].
  apply bool_decide_eq_true in Hc as [d Hd].
  simpl. rewrite (digit_not_space c d Hd).
  rewrite (digit_not_char c "-"%char d Hd) by (vm_compute; reflexivity).
  rewrite (digit_not_char c "+"%char d Hd) by (vm_compute; reflexivity).
  change (exists n, 0 <= n /\ int_digits 0 false (c :: l) = Some n).
  apply int_digits_accepts; [lia | exact Hall | left; discriminate].
Qed.

Lemma all_digits_ascii (s : string) : all_digits s = true -> is_ascii s = true.
Proof.
  unfold all_digits, is_ascii.
  destruct (list_ascii_of_string s) as [|c l]; [discriminate|]. apply digits_are_ascii.
Qed.

Section DigitIdentifiers.
Context `{UnicodeDatabase}.

(** An identifier made of decimal digits, at most as many as the
    interpreter converts, is never answered 400: while no user owns two
    rows, the answer is 200 or 404. *)
Theorem retrieve_numeric_identifier (self : View) (ident : string) (w : World) :
  method (request self) = GET ->
  kwargs self !! "username_id" = Some ident ->
  all_digits ident = true ->
  (String.length ident <= 4300)%nat ->
  List.NoDup (map username_id (profiles w)) ->
  exists resp w',
    dispatch ViewUserProfileAPIView.permission_classes
             ViewUserProfileAPIView.retrieve self w = (inl resp, w')
    /\ (status resp = HTTP_200_OK \/ status resp = HTTP_404_NOT_FOUND).
Proof.
  intros Hget Hk Hdigits Hlen Hnd.
  destruct (python_int_accepts_digits ident Hdigits Hlen) as (n & _ & Hint).
  unfold ViewUserProfileAPIView.permission_classes.
  rewrite (dispatch_read_only _ self w Hget), (retrieve_cases self ident w Hk).
  unfold builtin_int. rewrite (all_digits_ascii ident Hdigits), Hint.
  rewrite evaluate_qs_filter.
  destruct (unique_owner_rows (profiles w) n Hnd) as [Hrows|[p Hrows]];
    unfold evaluate; rewrite Hrows; simpl.
  - eexists _, _; simpl; eauto.
  - destruct (active_profile_is true p); eexists _, _; simpl; eauto.
Qed.
End DigitIdentifiers.

(** ** The listing as a dictionary *)

Lemma find_snoc {A} (f : A -> bool) (l : list A) (x : A) :
  List.find f (l ++ [x]) =
  match List.find f l with
  | Some y => Some y
  | None => if f x then Some x else None
  end.
Proof.
  induction l as [|a l IH]; simpl; [reflexivity|].
  destruct (f a); [reflexivity | exact IH].
Qed.

Lemma by_username_acc_last (objs : list ProfileData) (d : gmap string ProfileData)
    (k : string) :
  fold_left (fun d obj => <[data_username obj := obj]> d) objs d !! k =
  match last_named k objs with
  | Some obj => Some obj
  | None => d !! k
  end.
Proof.
  revert d. induction objs as [|o objs IH]; intros d; [reflexivity|].
  simpl fold_left. rewrite IH. unfold last_named. simpl rev. rewrite find_snoc.
  destruct (List.find _ (rev objs)); [reflexivity|].
  rewrite lookup_insert.
  destruct (String.eqb_spec (data_username o) k); case_decide; congruence.
Qed.

(** The mapping of a listing holds, under each name, the last profile of
    the query set that bears the name: an earlier one of the same name
    is replaced, and a name nobody bears is no key. *)
Theorem by_username_last_wins (objs : list ProfileData) (k : string) :
  ViewAllProfilesAPIView.by_username objs !! k = last_named k objs.
Proof.
  unfold ViewAllProfilesAPIView.by_username. rewrite by_username_acc_last.
  destruct (last_named k objs); [reflexivity | apply lookup_empty].
Qed.

Lemma by_username_acc_size (objs : list ProfileData) (d : gmap string ProfileData) :
  List.NoDup (map data_username objs) ->
  (forall obj, In obj objs -> d !! data_username obj = None) ->
  size (fold_left (fun d obj => <[data_username obj := obj]> d) objs d)
  = (size d + length objs)%nat.
Proof.
  revert d. induction objs as [|o objs IH]; simpl; intros d Hnd Hfree; [lia|].
  inversion Hnd as [|x xs Hnotin Hnd']; subst.
  rewrite IH; [|exact Hnd'|].
  - rewrite map_size_insert_None by (apply Hfree; left; reflexivity). lia.
  - intros obj Hin. rewrite lookup_insert_ne; [apply Hfree; right; exact Hin|].
    intros E. apply Hnotin. rewrite E. apply in_map. exact Hin.
Qed.

(** Listing always answers and never changes the table: 200 with the
    mapping when some profile is active, and only then; while the active
    profiles bear distinct names the mapping has one entry for each. *)
Theorem list_always_answers (self : View) (w : World) :
  exists resp w',
    respond (ViewAllProfilesAPIView.list self) w = (inl resp, w')
    /\ profiles w' = profiles w
    /\ (status resp = HTTP_200_OK \/ status resp = HTTP_404_NOT_FOUND)
    /\ (status resp = HTTP_200_OK <->
        exists p, In p (profiles w) /\ active_profile p = true)
    /\ (forall d, body resp = Profiles d ->
        List.NoDup (map profile_name (evaluate (active_profile_is true) w)) ->
        size d = length (evaluate (active_profile_is true) w)).
Proof.
  unfold respond. rewrite list_run.
  destruct (evaluate (active_profile_is true) w) as [|r rows] eqn:Hrows.
  - eexists _, _. split; [reflexivity|]. simpl. split; [reflexivity|].
    split; [right; reflexivity|]. split; [|discriminate].
    split; [discriminate|]. intros (p & Hin & Hflag). exfalso.
    assert (H : In p (evaluate (active_profile_is true) w)).
    { apply evaluate_In. split; [exact Hin|]. unfold active_profile_is.
      rewrite Hflag. reflexivity. }
    rewrite Hrows in H. exact H.
  - eexists _, _. split; [reflexivity|]. split; [reflexivity|].
    split; [left; reflexivity|]. split.
    + split; [|reflexivity]. intros _. exists r.
      assert (H : In r (evaluate (active_profile_is true) w))
        by (rewrite Hrows; left; reflexivity).
      apply evaluate_In in H as [Hin Hflag]. split; [exact Hin|].
      unfold active_profile_is in Hflag. destruct (active_profile r);
        [reflexivity | discriminate].
    + intros d [= <-] Hnd. unfold ViewAllProfilesAPIView.by_username.
      change (ProfileSerializer_data r :: map ProfileSerializer_data rows)
        with (map ProfileSerializer_data (r :: rows)).
      rewrite by_username_acc_size.
      * rewrite map_size_empty, length_map. reflexivity.
      * rewrite map_map. exact Hnd.
      * intros obj _. apply lookup_empty.
Qed.

(** ** Deactivation as seen by readers *)

Section SeenByReaders.
Context `{UnicodeDatabase}.

(** Once its owner has deactivated it, with a PUT routed without
    capture, a profile is hidden: asking for it under an identifier that
    [int] reads as the owner's id is answered 404 "User profile does not
    exist", and no row of the owner is among those a listing reads. *)
Theorem deactivated_profile_hidden (self viewer : View) (ident : string) (u : User)
    (p : UserProfile) (w : World) :
  method (request self) = PUT ->
  kwargs self = ∅ ->
  user (request self) = Some u ->
  has_profile w u p ->
  active_profile p = true ->
  List.NoDup (map pk (profiles w)) ->
  method (request viewer) = GET ->
  kwargs viewer !! "username_id" = Some ident ->
  builtin_int ident = Some (id u) ->
  exists w1,
    respond (DeactivateProfileAPIView.update self) w
      = (inl (mkResponse HTTP_200_OK (Activation false)), w1)
    /\ dispatch ViewUserProfileAPIView.permission_classes
                ViewUserProfileAPIView.retrieve viewer w1
       = (inl (mkResponse HTTP_404_NOT_FOUND (Message "User profile does not exist")),
          mkWorld (profiles w1) HTTP_404_NOT_FOUND)
    /\ forall q, In q (evaluate (active_profile_is true) w1) -> username_id q <> id u.
Proof.
  intros Hput Hkwargs Hu Hp Hflag Hnd Hget Hk Hint.
  pose proof (update_keywords_put self Hput Hkwargs) as Hkw.
  assert (Hid : request_user_id self = Some (id u))
    by (unfold request_user_id; rewrite Hu; reflexivity).
  pose proof (has_profile_saved w u p false Hp Hnd) as Hp1.
  unfold has_profile in Hp, Hp1.
  eexists. split; [|split].
  - rewrite (deactivate_update_cases self w Hkw), Hid, Hp, Hflag. reflexivity.
  - unfold ViewUserProfileAPIView.permission_classes.
    rewrite (dispatch_read_only _ viewer _ Hget), (retrieve_cases viewer ident _ Hk), Hint.
    rewrite evaluate_qs_filter, Hp1. reflexivity.
  - intros q Hq Hown. apply evaluate_In in Hq as [Hin Hactive].
    assert (Hq : In q [set_active p false]).
    { rewrite <- Hp1. apply evaluate_In. split; [exact Hin|]. simpl.
      apply Z.eqb_eq. exact Hown. }
    destruct Hq as [<-|[]]. discriminate Hactive.
Qed.

(** Once its owner has activated it again, with a PUT routed without
    capture, the profile is shown to anyone who asks for it under an
    identifier that [int] reads as the owner's id. *)
Theorem activated_profile_shown (self viewer : View) (ident : string) (u : User)
    (p : UserProfile) (w : World) :
  method (request self) = PUT ->
  kwargs self = ∅ ->
  user (request self) = Some u ->
  has_profile w u p ->
  active_profile p = false ->
  List.NoDup (map pk (profiles w)) ->
  method (request viewer) = GET ->
  kwargs viewer !! "username_id" = Some ident ->
  builtin_int ident = Some (id u) ->
  exists w1,
    respond (ActivateProfileAPIView.update self) w
      = (inl (mkResponse HTTP_200_OK (Activation true)), w1)
    /\ dispatch ViewUserProfileAPIView.permission_classes
                ViewUserProfileAPIView.retrieve viewer w1
       = (inl (mkResponse HTTP_200_OK
                 (Profile (ProfileSerializer_data (set_active p true)))), w1).
Proof.
  intros Hput Hkwargs Hu Hp Hflag Hnd Hget Hk Hint.
  pose proof (update_keywords_put self Hput Hkwargs) as Hkw.
  assert (Hid : request_user_id self = Some (id u))
    by (unfold request_user_id; rewrite Hu; reflexivity).
  pose proof (has_profile_saved w u p true Hp Hnd) as Hp1.
  unfold has_profile in Hp, Hp1.
  eexists. split.
  - rewrite (activate_update_cases self w Hkw), Hid, Hp, Hflag. reflexivity.
  - unfold ViewUserProfileAPIView.permission_classes.
    rewrite (dispatch_read_only _ viewer _ Hget), (retrieve_cases viewer ident _ Hk), Hint.
    rewrite evaluate_qs_filter, Hp1. simpl. rewrite ?Hp1. reflexivity.
Qed.
End SeenByReaders.

(** ** Anonymous requests to the reading views *)

(** The views that show and list profiles serve an anonymous request
    made with a safe method, and refuse any other anonymous request with
    403 before the handler runs. *)
Theorem reading_views_anonymous (handler : View -> M Response) (self : View) (w : World) :
  user (request self) = None ->
  let answer :=
    if existsb (Method_eqb (method (request self))) SAFE_METHODS
    then respond (handler self) w
    else (inl (mkResponse HTTP_403_FORBIDDEN
                 (Detail "Authentication credentials were not provided.")), w) in
  dispatch ViewUserProfileAPIView.permission_classes handler self w = answer
  /\ dispatch ViewAllProfilesAPIView.permission_classes handler self w = answer.
Proof.
  intros Hanon answer. subst answer.
  unfold dispatch, check_permissions, ViewUserProfileAPIView.permission_classes,
    ViewAllProfilesAPIView.permission_classes. simpl. rewrite Hanon.
  destruct (method (request self)); split; reflexivity.
Qed.

(** * The routes of the articles application *)

(** ** Splitting and joining paths *)

Lemma split_slash_cons (s : string) : exists part rest, split_slash s = part :: rest.
Proof.
  destruct s as [|c s]; simpl; [eauto|].
  destruct (Ascii.eqb c "/"%char); [eauto|].
  destruct (split_slash s); eauto.
Qed.

Lemma split_slash_whole (s : string) : slash_free s = true -> split_slash s = [s].
Proof.
  induction s as [|c s IH]; simpl; [reflexivity|]. intros Hfree.
  apply andb_prop in Hfree as [Hc Hs]. apply negb_true_iff in Hc.
  rewrite Hc, (IH Hs). reflexivity.
Qed.

Lemma split_slash_app (s t : string) :
  slash_free s = true -> split_slash (s ++ "/" ++ t) = s :: split_slash t.
Proof.
  induction s as [|c s IH]; simpl; [reflexivity|]. intros Hfree.
  apply andb_prop in Hfree as [Hc Hs]. apply negb_true_iff in Hc.
  rewrite Hc, (IH Hs). reflexivity.
Qed.

Lemma split_slash_trailing (s : string) :
  split_slash (s ++ "/") = (split_slash s ++ [EmptyString])%list.
Proof.
  induction s as [|c s IH]; simpl; [reflexivity|].
  rewrite IH. destruct (Ascii.eqb c "/"%char); [reflexivity|].
  destruct (split_slash_cons s) as (part & rest & ->). reflexivity.
Qed.

Lemma split_slash_parts_free (s : string) :
  Forall (fun part => slash_free part = true) (split_slash s).
Proof.
  induction s as [|c s IH]; simpl; [repeat constructor|].
  destruct (Ascii.eqb c "/"%char) eqn:Hc; [constructor; [reflexivity | exact IH]|].
  destruct (split_slash s) as [|part rest]; [repeat constructor; simpl; rewrite Hc; reflexivity|].
  inversion IH; subst. constructor; [|assumption]. simpl. rewrite Hc. assumption.
Qed.

Lemma split_join (parts : list string) :
  parts <> [] ->
  Forall (fun part => slash_free part = true) parts ->
  split_slash (join_slash parts) = parts.
Proof.
  induction parts as [|part rest IH]; [congruence|]. intros _ Hfree.
  inversion Hfree as [|x xs Hpart Hrest]; subst.
  destruct rest as [|part' rest'].
  - simpl. apply split_slash_whole. exact Hpart.
  - change (join_slash (part :: part' :: rest'))
      with (part ++ "/" ++ join_slash (part' :: rest')).
    rewrite (split_slash_app _ _ Hpart), IH; [reflexivity | discriminate | exact Hrest].
Qed.

(** ** Matching *)

Lemma match_parts_overlaps (p q : list piece) (parts : list string)
    (kw kw' : list (string * string)) :
  match_parts p parts = Some kw -> match_parts q parts = Some kw' ->
  overlaps p q = true.
Proof.
  revert q parts kw kw'.
  induction p as [|a p IH]; intros q parts kw kw' Hp Hq.
  - destruct parts; [|discriminate]. destruct q as [|[?|?] ?]; [reflexivity|discriminate..].
  - destruct parts as [|part parts]; [destruct a; discriminate|].
    destruct q as [|b q]; [discriminate|].
    assert (Htail : exists k k', match_parts p parts = Some k
                                 /\ match_parts q parts = Some k').
    { destruct a, b; simpl in Hp, Hq;
        repeat match goal with
               | H : (if ?c then _ else _) = Some _ |- _ => destruct c; [|try discriminate H]
               | H : (if ?c then _ else _) = Some _ |- _ => destruct c; [try discriminate H|]
               end; try discriminate;
        destruct (match_parts p parts), (match_parts q parts); try discriminate; eauto. }
    destruct Htail as (k & k' & Hk & Hk'). simpl. rewrite (IH q parts k k' Hk Hk').
    rewrite andb_true_r.
    destruct a as [x|n], b as [y|m]; simpl in *.
    + destruct (String.eqb_spec x part), (String.eqb_spec y part); try discriminate.
      subst. apply String.eqb_refl.
    + destruct (String.eqb_spec x part); [subst|discriminate].
      destruct (String.eqb part ""); [discriminate | reflexivity].
    + destruct (String.eqb_spec y part); [subst|discriminate].
      destruct (String.eqb part ""); [discriminate | reflexivity].
    + reflexivity.
Qed.

Lemma matches_overlaps (u u' : URLPattern) (request_path : string)
    (kw kw' : list (string * string)) :
  matches u request_path = Some kw -> matches u' request_path = Some kw' ->
  disjoint_from u u' = false.
Proof.
  unfold matches, disjoint_from.
  destruct (compile u) as [p|], (compile u') as [q|]; simpl; try discriminate.
  intros Hp Hq. rewrite (match_parts_overlaps p q _ kw kw' Hp Hq). reflexivity.
Qed.

Lemma disjoint_from_sym (u u' : URLPattern) : disjoint_from u u' = disjoint_from u' u.
Proof.
  unfold disjoint_from. destruct (compile u) as [p|], (compile u') as [q|];
    try reflexivity. f_equal.
  revert q. induction p as [|a p IH]; intros [|b q]; simpl; try reflexivity.
  rewrite IH. f_equal. destruct a, b; simpl; try reflexivity. apply String.eqb_sym.
Qed.

Lemma pairwise_disjoint_unique (table : list URLPattern) (u u' : URLPattern)
    (request_path : string) (kw kw' : list (string * string)) :
  pairwise_disjoint table = true ->
  In u table -> In u' table ->
  matches u request_path = Some kw -> matches u' request_path = Some kw' ->
  u = u'.
Proof.
  induction table as [|h table IH]; simpl; intros Hdis Hu Hu' Hm Hm'; [contradiction|].
  apply andb_prop in Hdis as [Hh Hrest]. rewrite forallb_forall in Hh.
  destruct Hu as [->|Hu], Hu' as [->|Hu'].
  - reflexivity.
  - pose proof (matches_overlaps _ _ _ _ _ Hm Hm') as Hover.
    rewrite (Hh u' Hu') in Hover. discriminate.
  - pose proof (matches_overlaps _ _ _ _ _ Hm' Hm) as Hover.
    rewrite (Hh u Hu) in Hover. discriminate.
  - apply IH; assumption.
Qed.

(** No request path is matched by two routes of the table: the order of
    [urlpatterns] decides nothing. *)
Theorem routes_unambiguous (request_path : string) (u u' : URLPattern)
    (kw kw' : list (string * string)) :
  line_feed_free request_path = true ->
  In u urlpatterns -> In u' urlpatterns ->
  matches u request_path = Some kw -> matches u' request_path = Some kw' ->
  u = u'.
Proof.
  intros _. apply pairwise_disjoint_unique. vm_compute. reflexivity.
Qed.

Lemma resolve_in_unique (table : list URLPattern) (u : URLPattern)
    (request_path : string) (kw : list (string * string)) :
  In u table ->
  matches u request_path = Some kw ->
  (forall u' kw', In u' table -> matches u' request_path = Some kw' -> u' = u) ->
  resolve_in table request_path = Some (view u, kw).
Proof.
  induction table as [|h table IH]; simpl; intros Hin Hm Huniq; [contradiction|].
  destruct (matches h request_path) as [kw'|] eqn:Hh.
  - pose proof (Huniq h kw' (or_introl eq_refl) Hh) as ->. congruence.
  - destruct Hin as [->|Hin]; [congruence|].
    apply IH; [exact Hin | exact Hm |]. intros u' kw' Hu'. apply Huniq. right. exact Hu'.
Qed.

Lemma resolve_in_inv (table : list URLPattern) (request_path : string)
    (v : ArticleView) (kw : list (string * string)) :
  resolve_in table request_path = Some (v, kw) ->
  exists u, In u table /\ view u = v /\ matches u request_path = Some kw.
Proof.
  induction table as [|h table IH]; simpl; [discriminate|].
  destruct (matches h request_path) as [kw'|] eqn:Hh.
  - intros [= <- <-]. exists h. auto.
  - intros Hres. destruct (IH Hres) as (u & Hin & Hv & Hm). exists u. auto.
Qed.

Lemma parse_part_Lit (part text : string) :
  parse_part part = Some (Lit text) -> text = part.
Proof.
  unfold parse_part. destruct part as [|c rest]; [congruence|].
  destruct (Ascii.eqb c "<"%char).
  - destruct (capture_name rest) as [[|? ?]|]; discriminate.
  - destruct (plain_text (String c rest)); congruence.
Qed.

Lemma parse_parts_fill (parts : list string) (ps : list piece) (values : list string) :
  parse_parts parts = Some ps ->
  Forall (fun part => slash_free part = true) parts ->
  Forall (fun v => slash_free v = true) values ->
  Forall (fun part => slash_free part = true) (fill ps values).
Proof.
  revert ps values. induction parts as [|part parts IH]; simpl; intros ps values Hparse Hfree Hvals.
  - injection Hparse as <-. constructor.
  - destruct (parse_part part) as [x|] eqn:Hx; [|discriminate].
    destruct (parse_parts parts) as [xs|]; [|discriminate].
    injection Hparse as <-. inversion Hfree; subst.
    destruct x as [text|n]; simpl.
    + apply parse_part_Lit in Hx as ->. constructor; [assumption|]. apply IH; auto.
    + destruct values as [|v values].
      * constructor; [reflexivity|]. apply IH; auto.
      * inversion Hvals; subst. constructor; [assumption|]. apply IH; auto.
Qed.

Lemma match_parts_fill (ps : list piece) (values : list string) :
  length values = length (params ps) ->
  Forall (fun v => v <> EmptyString) values ->
  match_parts ps (fill ps values) = Some (combine (params ps) values).
Proof.
  revert values. induction ps as [|[text|n] ps IH]; simpl; intros values Hlen Hne.
  - reflexivity.
  - rewrite String.eqb_refl. apply IH; assumption.
  - destruct values as [|v values]; [discriminate|].
    inversion Hne; subst. injection Hlen as Hlen.
    destruct (String.eqb_spec v ""); [contradiction|].
    rewrite (IH values Hlen) by assumption. reflexivity.
Qed.

(** Putting values in the place of a route's captures gives a path that
    resolves to that route's view, with exactly those values as keyword
    arguments, provided each value is non-empty and holds no "/". *)
Theorem resolve_filled_route (u : URLPattern) (ps : list piece) (values : list string) :
  In u urlpatterns ->
  compile u = Some ps ->
  length values = length (params ps) ->
  Forall (fun v => v <> EmptyString /\ slash_free v = true
                   /\ line_feed_free v = true) values ->
  resolve (join_slash (fill ps values)) = Some (view u, combine (params ps) values).
Proof.
  intros Hin Hcompile Hlen Hvals.
  assert (Hne : Forall (fun v => v <> EmptyString) values)
    by (eapply List.Forall_impl; [|exact Hvals]; simpl; tauto).
  assert (Hfree : Forall (fun v => slash_free v = true) values)
    by (eapply List.Forall_impl; [|exact Hvals]; simpl; tauto).
  assert (Hsplit : split_slash (join_slash (fill ps values)) = fill ps values).
  { apply split_join.
    - unfold compile in Hcompile.
      destruct (split_slash_cons (route u)) as (part & rest & Hr).
      rewrite Hr in Hcompile. simpl in Hcompile.
      destruct (parse_part part) as [[?|?]|]; [| |discriminate];
        destruct (parse_parts rest); try discriminate;
        injection Hcompile as <-; simpl; [discriminate|].
      destruct values; discriminate.
    - apply (parse_parts_fill (split_slash (route u))); auto.
      apply split_slash_parts_free. }
  assert (Hm : matches u (join_slash (fill ps values))
               = Some (combine (params ps) values)).
  { unfold matches. rewrite Hcompile. simpl. rewrite Hsplit.
    apply match_parts_fill; assumption. }
  apply resolve_in_unique; [exact Hin | exact Hm |].
  intros u' kw' Hin' Hm'.
  apply (pairwise_disjoint_unique urlpatterns u' u
           (join_slash (fill ps values)) kw' (combine (params ps) values));
    [vm_compute; reflexivity | assumption..].
Qed.

Lemma match_parts_values (ps : list piece) (parts : list string)
    (kw : list (string * string)) :
  match_parts ps parts = Some kw ->
  map fst kw = params ps /\ forall n v, In (n, v) kw -> v <> EmptyString /\ In v parts.
Proof.
  revert parts kw. induction ps as [|[text|n] ps IH]; intros parts kw Hm.
  - destruct parts; [|discriminate]. injection Hm as <-. split; [reflexivity|].
    intros ? ? [].
  - destruct parts as [|part parts]; [discriminate|]. simpl in Hm.
    destruct (String.eqb text part); [|discriminate].
    destruct (IH parts kw Hm) as [Hnames Hvals]. split; [exact Hnames|].
    intros m v Hin. destruct (Hvals m v Hin). split; [assumption | right; assumption].
  - destruct parts as [|part parts]; [discriminate|]. simpl in Hm.
    destruct (String.eqb_spec part ""); [discriminate|].
    destruct (match_parts ps parts) as [kw'|] eqn:Hrest; [|discriminate].
    injection Hm as <-. destruct (IH parts kw' Hrest) as [Hnames Hvals].
    split; [simpl; f_equal; exact Hnames|].
    intros m v [[= <- <-]|Hin]; [split; [assumption | left; reflexivity]|].
    destruct (Hvals m v Hin). split; [assumption | right; assumption].
Qed.

(** A view is never handed an empty keyword argument nor one with a "/"
    in it, and it is handed exactly the captures of its route, in route
    order. *)
Theorem resolved_arguments (request_path : string) (v : ArticleView)
    (kw : list (string * string)) :
  line_feed_free request_path = true ->
  resolve request_path = Some (v, kw) ->
  exists u ps,
    In u urlpatterns /\ view u = v /\ compile u = Some ps
    /\ map fst kw = params ps
    /\ forall n x, In (n, x) kw -> x <> EmptyString /\ slash_free x = true.
Proof.
  intros _ Hres. apply resolve_in_inv in Hres as (u & Hin & Hv & Hm).
  unfold matches in Hm. destruct (compile u) as [ps|] eqn:Hc; [|discriminate].
  simpl in Hm. destruct (match_parts_values _ _ _ Hm) as [Hnames Hvals].
  exists u, ps. repeat split; auto.
  - apply (Hvals n x H).
  - destruct (Hvals n x H) as [_ Hpart].
    pose proof (split_slash_parts_free request_path) as Hfree.
    rewrite List.Forall_forall in Hfree. apply Hfree. exact Hpart.
Qed.

Lemma match_parts_trailing (ps : list piece) (parts : list string)
    (kw : list (string * string)) :
  match_parts ps parts = Some kw ->
  match_parts (ps ++ [Lit EmptyString]) (parts ++ [EmptyString]) = Some kw.
Proof.
  revert parts kw. induction ps as [|[text|n] ps IH]; intros parts kw Hm.
  - destruct parts; [|discriminate]. exact Hm.
  - destruct parts as [|part parts]; [discriminate|]. simpl in *.
    destruct (String.eqb text part); [|discriminate]. apply IH. exact Hm.
  - destruct parts as [|part parts]; [discriminate|]. simpl in *.
    destruct (String.eqb part ""); [discriminate|].
    destruct (match_parts ps parts) as [kw'|] eqn:Hrest; [|discriminate].
    rewrite (IH parts kw' Hrest). exact Hm.
Qed.

(** The table is strict about the trailing "/": a path that resolves
    stops resolving when a "/" is added at its end. *)
Theorem trailing_slash_strict (request_path : string) :
  line_feed_free request_path = true ->
  resolve request_path <> None ->
  resolve (request_path ++ "/") = None.
Proof.
  intros _ Hres.
  destruct (resolve request_path) as [[v kw]|] eqn:Hr; [clear Hres|congruence].
  apply resolve_in_inv in Hr as (u & Hin & _ & Hm).
  destruct (resolve (request_path ++ "/")) as [[v' kw']|] eqn:Hr'; [|reflexivity].
  exfalso. apply resolve_in_inv in Hr' as (u' & Hin' & _ & Hm').
  assert (Hstrict : slash_strict urlpatterns = true) by (vm_compute; reflexivity).
  unfold slash_strict in Hstrict. rewrite forallb_forall in Hstrict.
  specialize (Hstrict u Hin). rewrite forallb_forall in Hstrict.
  specialize (Hstrict u' Hin').
  unfold matches in Hm, Hm'.
  destruct (compile u) as [p|]; [|discriminate].
  destruct (compile u') as [q|]; [|discriminate]. simpl in Hm, Hm'.
  rewrite split_slash_trailing in Hm'.
  apply match_parts_trailing in Hm.
  rewrite (match_parts_overlaps _ _ _ _ _ Hm Hm') in Hstrict. discriminate.
Qed.

Lemma urlpatterns_compile (u : URLPattern) :
  In u urlpatterns -> exists ps, compile u = Some ps.
Proof.
  simpl. intros Hin.
  repeat (destruct Hin as [<-|Hin]; [eexists; vm_compute; reflexivity|]).
  contradiction.
Qed.

Example resolve_like :
  resolve "articles/how-to/like" = Some (LikeAPIView, [("slug", "how-to")]).
Proof. vm_compute. reflexivity. Qed.

Example resolve_subcomment :
  resolve "articles/how-to/comments/7/subcomment"
  = Some (SubCommentAPIView, [("slug", "how-to"); ("pk", "7")]).
Proof. vm_compute. reflexivity. Qed.

Example resolve_collection :
  resolve "articles/" = Some (ArticlesAPIView, [])
  /\ resolve "articles" = None
  /\ resolve "articles/how-to/" = None
  /\ resolve "rate/how-to" = None.
Proof. vm_compute. repeat split. Qed.

(** * The further statements at sample requests *)

Lemma sample_table_wf : wf_table (profiles sample_world).
Proof.
  split; simpl; repeat constructor; simpl; intros Hin;
    repeat (destruct Hin as [Hin|Hin]; [discriminate Hin|]); exact Hin.
Defined.

Lemma toggle_without_profile_witness :
  dispatch DeactivateProfileAPIView.permission_classes DeactivateProfileAPIView.update
           (request_of PUT (Some dave) ∅ None) sample_world
  = (inl (mkResponse HTTP_404_NOT_FOUND (Message "User profile not found")),
     mkWorld (profiles sample_world) HTTP_404_NOT_FOUND).
Proof.
  apply (toggle_without_profile (request_of PUT (Some dave) ∅ None) dave sample_world
           eq_refl eq_refl eq_refl eq_refl).
Defined.

Lemma deactivate_then_activate_witness :
  exists w1,
    respond (DeactivateProfileAPIView.update (request_of PUT (Some bob) ∅ None))
            sample_world
      = (inl (mkResponse HTTP_200_OK (Activation false)), w1)
    /\ respond (ActivateProfileAPIView.update (request_of PUT (Some bob) ∅ None)) w1
      = (inl (mkResponse HTTP_200_OK (Activation true)), sample_world).
Proof.
  apply (deactivate_then_activate (request_of PUT (Some bob) ∅ None) bob bob_active
           sample_world eq_refl eq_refl eq_refl eq_refl eq_refl sample_keys_distinct).
Defined.

Lemma toggle_keeps_table_witness :
  wf_table [alice_active; set_active bob_active false; carol_inactive].
Proof.
  apply (toggle_keeps_table (request_of PUT (Some bob) ∅ None) sample_world
           (mkWorld [alice_active; set_active bob_active false; carol_inactive]
                    HTTP_500_INTERNAL_SERVER_ERROR)
           (inl (mkResponse HTTP_200_OK (Activation false)))
           sample_table_wf (or_introl eq_refl)).
Defined.

Lemma create_first_profile_witness :
  exists p,
    respond (@CreateProfileAPIView.create lenient (request_of POST (Some dave) ∅ None))
            sample_world
    = (inl (mkResponse HTTP_201_CREATED (Profile (ProfileSerializer_data p))),
       mkWorld (profiles sample_world ++ [p]) (status_code sample_world))
    /\ username p = dave.
Proof.
  destruct (@create_first_profile lenient (request_of POST (Some dave) ∅ None)
              (mkProfileFields None None) dave sample_world)
    as (p & Hrun & Hname & _); [reflexivity..|].
  exists p. split; [exact Hrun | exact Hname].
Defined.

Lemma create_never_duplicates_witness :
  exists s m w',
    respond (@CreateProfileAPIView.create lenient (request_of POST (Some bob) ∅ None))
            sample_world
    = (inl (mkResponse s (Message m)), w')
    /\ profiles w' = profiles sample_world.
Proof.
  apply (@create_never_duplicates lenient (request_of POST (Some bob) ∅ None)
           (mkProfileFields None None) bob bob_active sample_world); reflexivity.
Defined.

Lemma create_keeps_table_witness :
  wf_table (profiles sample_world
            ++ [mkProfile 4 dave None "" true]).
Proof.
  apply (@create_keeps_table lenient (request_of POST (Some dave) ∅ None)
           (mkProfileFields None None) dave sample_world
           (mkWorld (profiles sample_world ++ [mkProfile 4 dave None "" true])
                    HTTP_500_INTERNAL_SERVER_ERROR)
           (inl (mkResponse HTTP_201_CREATED
                   (Profile (ProfileSerializer_data (mkProfile 4 dave None "" true)))))
           ); [reflexivity | reflexivity | reflexivity | exact sample_table_wf
              | reflexivity].
Defined.

Lemma edit_without_profile_witness :
  respond (@EditUserProfileAPIView.update lenient false
             (request_of PUT (Some dave) {[ "bio" := "hello" ]} None))
          sample_world
  = (inl (mkResponse HTTP_404_NOT_FOUND
            (Message "User profile not found. Please create one")),
     mkWorld (profiles sample_world) HTTP_404_NOT_FOUND).
Proof.
  apply (@edit_without_profile lenient false
           (request_of PUT (Some dave) {[ "bio" := "hello" ]} None) sample_world);
    reflexivity.
Defined.

Lemma retrieve_active_profile_witness :
  dispatch ViewUserProfileAPIView.permission_classes
           (@ViewUserProfileAPIView.retrieve ascii_digits_only)
           (request_of GET None ∅ (Some " 2 ")) sample_world
  = (inl (mkResponse HTTP_200_OK (Profile (ProfileSerializer_data bob_active))),
     sample_world).
Proof.
  apply (@retrieve_active_profile ascii_digits_only
           (request_of GET None ∅ (Some " 2 ")) " 2 " bob
           bob_active sample_world); reflexivity.
Defined.

Lemma sample_owners_distinct :
  List.NoDup (map username_id (profiles sample_world)).
Proof. exact (proj2 sample_table_wf). Defined.



Lemma sample_identifier_short : (String.length "0042" <= 4300)%nat.
Proof. simpl. lia. Defined.

Lemma retrieve_numeric_identifier_witness :
  exists resp w',
    dispatch ViewUserProfileAPIView.permission_classes
             (@ViewUserProfileAPIView.retrieve ascii_digits_only)
             (request_of GET None ∅ (Some "0042")) sample_world = (inl resp, w')
    /\ (status resp = HTTP_200_OK \/ status resp = HTTP_404_NOT_FOUND).
Proof.
  apply (@retrieve_numeric_identifier ascii_digits_only
           (request_of GET None ∅ (Some "0042")) "0042"
           sample_world eq_refl eq_refl eq_refl sample_identifier_short
           sample_owners_distinct).
Defined.

Lemma deactivated_profile_hidden_witness :
  exists w1,
    respond (DeactivateProfileAPIView.update (request_of PUT (Some bob) ∅ None))
            sample_world
      = (inl (mkResponse HTTP_200_OK (Activation false)), w1)
    /\ dispatch ViewUserProfileAPIView.permission_classes
                (@ViewUserProfileAPIView.retrieve ascii_digits_only)
                (request_of GET None ∅ (Some "2")) w1
       = (inl (mkResponse HTTP_404_NOT_FOUND (Message "User profile does not exist")),
          mkWorld (profiles w1) HTTP_404_NOT_FOUND).
Proof.
  destruct (@deactivated_profile_hidden ascii_digits_only
              (request_of PUT (Some bob) ∅ None)
              (request_of GET None ∅ (Some "2")) "2" bob bob_active sample_world
              eq_refl eq_refl eq_refl eq_refl eq_refl sample_keys_distinct
              eq_refl eq_refl eq_refl)
    as (w1 & Hoff & Hgone & _).
  exists w1. split; [exact Hoff | exact Hgone].
Defined.

Lemma activated_profile_shown_witness :
  exists w1,
    respond (ActivateProfileAPIView.update (request_of PUT (Some carol) ∅ None))
            sample_world
      = (inl (mkResponse HTTP_200_OK (Activation true)), w1)
    /\ dispatch ViewUserProfileAPIView.permission_classes
                (@ViewUserProfileAPIView.retrieve ascii_digits_only)
                (request_of GET None ∅ (Some "3")) w1
       = (inl (mkResponse HTTP_200_OK
                 (Profile (ProfileSerializer_data (set_active carol_inactive true)))),
          w1).
Proof.
  apply (@activated_profile_shown ascii_digits_only
           (request_of PUT (Some carol) ∅ None)
           (request_of GET None ∅ (Some "3")) "3" carol carol_inactive sample_world
           eq_refl eq_refl eq_refl eq_refl eq_refl sample_keys_distinct
           eq_refl eq_refl eq_refl).
Defined.

Lemma reading_views_anonymous_witness :
  dispatch ViewAllProfilesAPIView.permission_classes ViewAllProfilesAPIView.list
           (request_of POST None ∅ None) sample_world
  = (inl (mkResponse HTTP_403_FORBIDDEN
            (Detail "Authentication credentials were not provided.")),
     sample_world).
Proof.
  apply (reading_views_anonymous ViewAllProfilesAPIView.list
           (request_of POST None ∅ None) sample_world eq_refl).
Defined.

Lemma routes_unambiguous_witness :
  matches (path "articles/<slug>" RetrieveArticleAPIView None) "articles/how-to/like"
  = None.
Proof.
  destruct (matches (path "articles/<slug>" RetrieveArticleAPIView None)
              "articles/how-to/like") as [kw|] eqn:Hm; [|reflexivity].
  assert (E : path "articles/<slug>" RetrieveArticleAPIView None
              = path "articles/<slug>/like" LikeAPIView None).
  { apply (routes_unambiguous "articles/how-to/like" _ _ kw [("slug", "how-to")]
             eq_refl); [simpl; tauto | simpl; tauto | exact Hm | reflexivity]. }
  discriminate E.
Defined.

Lemma resolve_filled_route_witness :
  resolve "rate/how-to/" = Some (RateAPIView, [("slug", "how-to")]).
Proof.
  apply (resolve_filled_route (path "rate/<slug>/" RateAPIView (Some "rate"))
           [Lit "rate"; Param "slug"; Lit ""] ["how-to"]).
  - simpl. tauto.
  - reflexivity.
  - reflexivity.
  - repeat constructor. discriminate.
Defined.

Lemma resolved_arguments_witness :
  exists u ps,
    In u urlpatterns /\ view u = RetrieveCommentsAPIView /\ compile u = Some ps
    /\ map fst [("slug", "how-to"); ("pk", "7")] = params ps.
Proof.
  destruct (resolved_arguments "articles/how-to/comments/7" RetrieveCommentsAPIView
              [("slug", "how-to"); ("pk", "7")] eq_refl eq_refl)
    as (u & ps & Hin & Hv & Hc & Hn & _).
  exists u, ps. auto.
Defined.

Lemma trailing_slash_strict_witness :
  resolve ("articles/how-to/like" ++ "/") = None.
Proof.
  apply (trailing_slash_strict "articles/how-to/like" eq_refl). discriminate.
Defined.
